(** * From-EarthData-to-Action: the data router and its provider adapters

    A shallow embedding of the helpers and of the precipitation, temperature
    and wind endpoints of [app/routers/data.py], and of the adapters in
    [app/services/merra2.py], [app/services/imerg.py] and
    [app/services/openaq_airnow.py].

    Python floats are kept behind a small arithmetic interface, [PyFloat],
    with two instances: IEEE binary64 (Rocq's primitive floats, what CPython
    computes with) and exact rationals.  Every function of the program is
    written once, over the interface.  Statements about names, provenance,
    indices and control flow hold for both instances; evaluations are done in
    binary64; bounds on synthetic values are proved in exact arithmetic.

    A call that may raise returns a [result]; [try]/[except] is written out.
    The network, the clock, the settings and the interpreter's hash secret
    are the fields of an [Environment]. *)

From Stdlib Require Import ZArith QArith Qround List String Ascii Bool Lia Lqa.
From Stdlib Require Import Floats DecimalString Sorting Permutation.
Import ListNotations.

Local Open Scope Z_scope.
Set Warnings "-inexact-float,-register-all".

(** ** Numbers *)

(** Nearest integer to [p / q], ties to the even one: Python's rounding. *)
Definition rhe_frac (p : Z) (q : Z) : Z :=
  let f := p / q in
  match (2 * (p mod q)) ?= q with
  | Lt => f
  | Gt => f + 1
  | Eq => if Z.even f then f else f + 1
  end.

Definition string_of_nonneg (z : Z) : string :=
  NilZero.string_of_uint (N.to_uint (Z.to_N z)).

Fixpoint zero_pad_to (fuel target : nat) (s : string) : string :=
  match fuel with
  | O => s
  | S f => if Nat.ltb (String.length s) target
           then zero_pad_to f target (String "0" s) else s
  end.

Definition zero_pad (width : nat) (s : string) : string := zero_pad_to width width s.

(** [format(x, ".<nd>f")] from the sign of [x] and the integer nearest to
    [|x| * 10^nd]. *)
Definition fixed_digits (nd : nat) (neg : bool) (n : Z) : string :=
  let scale := 10 ^ Z.of_nat nd in
  let body :=
    match nd with
    | O => string_of_nonneg n
    | _ => (string_of_nonneg (n / scale) ++ "." ++
            zero_pad nd (string_of_nonneg (n mod scale)))%string
    end in
  if neg then String "-" body else body.

(** What the program does with a float. *)
Class PyFloat (F : Type) := {
  num : Q -> F;                 (* a literal, or an int promoted to float *)
  fadd : F -> F -> F;
  fsub : F -> F -> F;
  fmul : F -> F -> F;
  fdiv : F -> F -> F;
  fltb : F -> F -> bool;        (* x < y *)
  fis_zero : F -> bool;         (* x == 0, the falsy float *)
  fis_nan : F -> bool;          (* math.isnan *)
  fround : F -> nat -> F;       (* round(x, nd) *)
  fround_int : F -> Z;          (* int(round(x)) *)
  fint : F -> Z;                (* int(x): towards zero *)
  ffixed : nat -> F -> string;  (* f"{x:.<nd>f}" *)
}.

(** [math.sqrt], only the wind adapter needs it. *)
Class PySqrt (F : Type) := { fsqrt : F -> F }.

Declare Scope py_scope.
Delimit Scope py_scope with py.
Infix "+" := fadd : py_scope.
Infix "-" := fsub : py_scope.
Infix "*" := fmul : py_scope.
Infix "/" := fdiv : py_scope.

(** *** IEEE binary64 *)
Module B64.

Definition of_Z (z : Z) : float :=
  match z with
  | Z0 => PrimFloat.zero
  | Zpos _ => PrimFloat.of_uint63 (Uint63.of_Z z)
  | Zneg p => PrimFloat.opp (PrimFloat.of_uint63 (Uint63.of_Z (Zpos p)))
  end.

(** A decimal literal: the double nearest to it (division is correctly
    rounded, numerator and denominator are exact below 2^53). *)
Definition of_Q (q : Q) : float :=
  PrimFloat.div (of_Z (Qnum q)) (of_Z (Zpos (Qden q))).

(** Sign and nearest integer (ties to even) of [|x| * scale]; nothing for
    nan and the infinities. *)
Definition scaled_rhe (x : float) (scale : Z) : option (bool * Z) :=
  match Prim2SF x with
  | S754_zero s => Some (s, 0)
  | S754_finite s m e =>
      Some (s, if 0 <=? e then Zpos m * 2 ^ e * scale
               else rhe_frac (Zpos m * scale) (2 ^ (- e)))
  | _ => None
  end.

Definition signed (neg : bool) (x : float) : float :=
  if neg then PrimFloat.opp x else x.

(** [round(x, nd)]: the decimal with [nd] places nearest to the exact value
    of [x], ties to even, then the double nearest to that decimal.  nan and
    the infinities are returned as they are. *)
Definition round (x : float) (nd : nat) : float :=
  match scaled_rhe x (10 ^ Z.of_nat nd) with
  | Some (s, n) => signed s (PrimFloat.div (of_Z n) (of_Z (10 ^ Z.of_nat nd)))
  | None => x
  end.

(** [int(round(x))].  Python raises on nan and the infinities; they are
    mapped to 0 here, the callers pass finite values. *)
Definition round_int (x : float) : Z :=
  match scaled_rhe x 1 with
  | Some (s, n) => if s then - n else n
  | None => 0
  end.

(** [int(x)], with the same convention for nan and the infinities. *)
Definition trunc (x : float) : Z :=
  match Prim2SF x with
  | S754_finite s m e =>
      let n := if 0 <=? e then Zpos m * 2 ^ e else Zpos m / 2 ^ (- e) in
      if s then - n else n
  | _ => 0
  end.

Definition fixed (nd : nat) (x : float) : string :=
  match scaled_rhe x (10 ^ Z.of_nat nd) with
  | Some (s, n) => fixed_digits nd s n
  | None => if PrimFloat.is_nan x then "nan"
            else if PrimFloat.ltb x PrimFloat.zero then "-inf" else "inf"
  end.

Definition is_zero (x : float) : bool := PrimFloat.eqb x PrimFloat.zero.

End B64.

#[export] Instance b64_float : PyFloat float := {
  num := B64.of_Q;
  fadd := PrimFloat.add;
  fsub := PrimFloat.sub;
  fmul := PrimFloat.mul;
  fdiv := PrimFloat.div;
  fltb := PrimFloat.ltb;
  fis_zero := B64.is_zero;
  fis_nan := PrimFloat.is_nan;
  fround := B64.round;
  fround_int := B64.round_int;
  fint := B64.trunc;
  ffixed := B64.fixed;
}.

#[export] Instance b64_sqrt : PySqrt float := { fsqrt := PrimFloat.sqrt }.

(** *** Exact rationals, kept in lowest terms *)
Module Exact.

Definition round (x : Q) (nd : nat) : Q :=
  let scale := 10 ^ Z.of_nat nd in
  Qred (Qmake (rhe_frac (Qnum x * scale) (Zpos (Qden x))) (Z.to_pos scale)).

Definition round_int (x : Q) : Z := rhe_frac (Qnum x) (Zpos (Qden x)).

Definition fixed (nd : nat) (x : Q) : string :=
  fixed_digits nd (Qnum x <? 0)
    (rhe_frac (Z.abs (Qnum x) * 10 ^ Z.of_nat nd) (Zpos (Qden x))).

Definition ltb (x y : Q) : bool :=
  match Qcompare x y with Lt => true | _ => false end.

End Exact.

#[export] Instance exact_float : PyFloat Q := {
  num := Qred;
  fadd := fun x y => Qred (Qplus x y);
  fsub := fun x y => Qred (Qminus x y);
  fmul := fun x y => Qred (Qmult x y);
  fdiv := fun x y => Qred (Qdiv x y);
  fltb := Exact.ltb;
  fis_zero := fun x => Qeq_bool x 0;
  fis_nan := fun _ => false;
  fround := Exact.round;
  fround_int := Exact.round_int;
  fint := fun x => Z.quot (Qnum x) (Zpos (Qden x));
  ffixed := Exact.fixed;
}.

(** ** The interpreter's [hash] and [random.Random]

    [_seed_from] calls the built-in [hash] on a [str] and [_fake_uniform]
    seeds a [random.Random] with the result.  Both are CPython's: SipHash-1-3
    keyed by the secret the process draws when it starts (Python/pyhash.c),
    and the Mersenne Twister MT19937 (Modules/_randommodule.c). *)

Definition u32 (x : Z) : Z := x mod 2 ^ 32.
Definition u64 (x : Z) : Z := x mod 2 ^ 64.

Module SipHash.

(** The part of [_Py_HashSecret] that keys the string hash.  It is read from
    the operating system's random source when the process starts, or
    derived from PYTHONHASHSEED when that variable is set. *)
Record secret := { k0 : Z; k1 : Z }.

Definition rotate (x b : Z) : Z :=
  u64 (Z.lor (Z.shiftl x b) (Z.shiftr x (64 - b))).

Definition half_round (a b c d s t : Z) : Z * Z * Z * Z :=
  let a := u64 (a + b) in
  let c := u64 (c + d) in
  let b := Z.lxor (rotate b s) a in
  let d := Z.lxor (rotate d t) c in
  let a := rotate a 32 in
  (a, b, c, d).

Definition single_round (v : Z * Z * Z * Z) : Z * Z * Z * Z :=
  let '(v0, v1, v2, v3) := v in
  let '(v0, v1, v2, v3) := half_round v0 v1 v2 v3 13 16 in
  let '(v2, v1, v0, v3) := half_round v2 v1 v0 v3 17 21 in
  (v0, v1, v2, v3).

(** Little-endian value of at most eight bytes. *)
Fixpoint le_word (bs : list Z) : Z :=
  match bs with
  | [] => 0
  | b :: rest => Z.lor b (Z.shiftl (le_word rest) 8)
  end.

Definition absorb (v : Z * Z * Z * Z) (m : Z) : Z * Z * Z * Z :=
  let '(v0, v1, v2, v3) := v in
  let '(v0, v1, v2, v3) := single_round (v0, v1, v2, Z.lxor v3 m) in
  (Z.lxor v0 m, v1, v2, v3).

(** The [while (src_sz >= 8)] loop, then the tail of fewer than 8 bytes. *)
Fixpoint blocks (fuel : nat) (v : Z * Z * Z * Z) (bs : list Z)
  : (Z * Z * Z * Z) * list Z :=
  match fuel with
  | O => (v, bs)
  | S f =>
      if (8 <=? List.length bs)%nat
      then blocks f (absorb v (le_word (firstn 8 bs))) (skipn 8 bs)
      else (v, bs)
  end.

Definition siphash13 (k : secret) (src : list Z) : Z :=
  let b := u64 (Z.shiftl (Z.of_nat (List.length src)) 56) in
  let v0 := Z.lxor (k0 k) 0x736f6d6570736575 in
  let v1 := Z.lxor (k1 k) 0x646f72616e646f6d in
  let v2 := Z.lxor (k0 k) 0x6c7967656e657261 in
  let v3 := Z.lxor (k1 k) 0x7465646279746573 in
  let '(v, tail) := blocks (List.length src) (v0, v1, v2, v3) src in
  let b := Z.lor b (le_word tail) in
  let '(v0, v1, v2, v3) := absorb v b in
  let v2 := Z.lxor v2 0xff in
  let '(v0, v1, v2, v3) :=
    single_round (single_round (single_round (v0, v1, v2, v3))) in
  Z.lxor (Z.lxor v0 v1) (Z.lxor v2 v3).

(** [(Py_hash_t)]: the 64 bits read as a signed integer. *)
Definition to_signed (x : Z) : Z := if x <? 2 ^ 63 then x else x - 2 ^ 64.

Definition bytes_of_string (s : string) : list Z :=
  map (fun c => Z.of_nat (nat_of_ascii c)) (list_ascii_of_string s).

(** [hash(s)] for a [str] (of one-byte characters): [_Py_HashBytes]. *)
Definition py_hash (k : secret) (s : string) : Z :=
  match bytes_of_string s with
  | [] => 0
  | bs => let x := to_signed (siphash13 k bs) in
          if x =? -1 then -2 else x
  end.

(** The secret of a process started with PYTHONHASHSEED=[seed]:
    [lcg_urandom] fills the secret's bytes; seed 0 leaves them zero. *)
Fixpoint lcg_bytes (n : nat) (x : Z) : list Z :=
  match n with
  | O => []
  | S n' => let x := u32 (x * 214013 + 2531011) in
            Z.land (Z.shiftr x 16) 0xff :: lcg_bytes n' x
  end.

Definition secret_of_seed (seed : Z) : secret :=
  if seed =? 0 then {| k0 := 0; k1 := 0 |}
  else let bs := lcg_bytes 16 seed in
       {| k0 := le_word (firstn 8 bs); k1 := le_word (skipn 8 bs) |}.

End SipHash.

Module MT.

Definition N : nat := 624.
Definition M : nat := 397.
Definition MATRIX_A : Z := 0x9908b0df.
Definition UPPER_MASK : Z := 0x80000000.
Definition LOWER_MASK : Z := 0x7fffffff.

Record state := { mt : list Z; index : nat }.

Definition get (l : list Z) (i : nat) : Z := nth i l 0.

Fixpoint set (l : list Z) (i : nat) (v : Z) : list Z :=
  match l, i with
  | [], _ => []
  | _ :: r, O => v :: r
  | x :: r, S i' => x :: set r i' v
  end.

(** [init_genrand]: mt[0] = s, mt[i] = 1812433253 * (mt[i-1] ^ (mt[i-1] >> 30)) + i. *)
Fixpoint init_genrand_from (count : nat) (i : Z) (prev : Z) : list Z :=
  match count with
  | O => []
  | S c =>
      let x := u32 (1812433253 * Z.lxor prev (Z.shiftr prev 30) + i) in
      x :: init_genrand_from c (i + 1) x
  end.

Definition init_genrand (s : Z) : list Z :=
  u32 s :: init_genrand_from (N - 1) 1 (u32 s).

Definition mix (mt : list Z) (i : nat) (mult : Z) : Z :=
  let p := get mt (i - 1) in
  Z.lxor (get mt i) (u32 (Z.lxor p (Z.shiftr p 30) * mult)).

(** The index wraps from N back to 1, carrying the last word to slot 0. *)
Definition bump (mt : list Z) (i : nat) : list Z * nat :=
  if (N <=? S i)%nat then (set mt 0 (get mt (N - 1)), 1%nat) else (mt, S i).

Fixpoint init_loop1 (k : nat) (key : list Z) (mt : list Z) (i j : nat) : list Z * nat :=
  match k with
  | O => (mt, i)
  | S k' =>
      let v := u32 (mix mt i 1664525 + get key j + Z.of_nat j) in
      let '(mt, i) := bump (set mt i v) i in
      let j := if (List.length key <=? S j)%nat then O else S j in
      init_loop1 k' key mt i j
  end.

Fixpoint init_loop2 (k : nat) (mt : list Z) (i : nat) : list Z :=
  match k with
  | O => mt
  | S k' =>
      let v := u32 (mix mt i 1566083941 - Z.of_nat i) in
      let '(mt, i) := bump (set mt i v) i in
      init_loop2 k' mt i
  end.

Definition init_by_array (key : list Z) : state :=
  let mt := init_genrand 19650218 in
  let '(mt, i) := init_loop1 (Nat.max N (List.length key)) key mt 1 0 in
  let mt := init_loop2 (N - 1) mt i in
  {| mt := set mt 0 0x80000000; index := N |}.

(** The 32-bit words of a non-negative seed, least significant first; at
    least one word. *)
Fixpoint key_words (fuel : nat) (n : Z) : list Z :=
  match fuel with
  | O => []
  | S f => if n <? 2 ^ 32 then [n] else u32 n :: key_words f (Z.shiftr n 32)
  end.

(** [random.Random(seed)] for an int seed: [random_seed] takes its absolute
    value and calls [init_by_array]. *)
Definition seed (n : Z) : state :=
  let a := Z.abs n in
  init_by_array (key_words (S (Z.to_nat (Z.log2 a))) a).

Definition twist_word (mt : list Z) (kk next from : nat) : Z :=
  let y := Z.lor (Z.land (get mt kk) UPPER_MASK) (Z.land (get mt next) LOWER_MASK) in
  Z.lxor (Z.lxor (get mt from) (Z.shiftr y 1))
         (if Z.testbit y 0 then MATRIX_A else 0).

(** The three loops of the regeneration step, in place and in order. *)
Fixpoint twist_from (count kk : nat) (mt : list Z) : list Z :=
  match count with
  | O => mt
  | S c =>
      let next := if (kk <? N - 1)%nat then S kk else O in
      let from := if (kk <? N - M)%nat then (kk + M)%nat else (kk + M - N)%nat in
      twist_from c (S kk) (set mt kk (twist_word mt kk next from))
  end.

Definition temper (y : Z) : Z :=
  let y := Z.lxor y (Z.shiftr y 11) in
  let y := Z.lxor y (Z.land (u32 (Z.shiftl y 7)) 0x9d2c5680) in
  let y := Z.lxor y (Z.land (u32 (Z.shiftl y 15)) 0xefc60000) in
  Z.lxor y (Z.shiftr y 18).

Definition genrand_uint32 (s : state) : Z * state :=
  let s := if (N <=? index s)%nat
           then {| mt := twist_from N 0 (mt s); index := 0 |} else s in
  (u32 (temper (get (mt s) (index s))), {| mt := mt s; index := S (index s) |}).

Section Float.
Context {F : Type} `{PyFloat F}.

(** [random()]: 53 random bits scaled into [0, 1). *)
Definition random (s : state) : F * state :=
  let '(x, s) := genrand_uint32 s in
  let '(y, s) := genrand_uint32 s in
  let a := Z.shiftr x 5 in
  let b := Z.shiftr y 6 in
  ((num (inject_Z a) * num 67108864 + num (inject_Z b))
   * (num 1 / num 9007199254740992), s)%py.

(** [uniform(a, b)]: a + (b - a) * random(). *)
Definition uniform (s : state) (a b : F) : F * state :=
  let '(r, s) := random s in ((a + (b - a) * r)%py, s).
End Float.

End MT.

(** ** app/routers/data.py: helpers *)

(** One entry of [recent_observations]: the dict with keys name, value, unit. *)
Record observation (V : Type) := Obs {
  obs_name : string;
  obs_value : V;
  obs_unit : string;
}.
Arguments Obs {V} _ _ _.
Arguments obs_name {V} _.
Arguments obs_value {V} _.
Arguments obs_unit {V} _.

(** The dict [_stats] returns. *)
Record stats (F : Type) := Stats { mean : F; p90 : F; last_value : F }.
Arguments Stats {F} _ _ _.
Arguments mean {F} _.
Arguments p90 {F} _.
Arguments last_value {F} _.

(** [_ensure_filled]: the first entry named [var_name] gets the value and the
    unit and the scan stops; when the scan reaches the end, a new entry is
    appended. *)
Fixpoint _ensure_filled {V : Type} (obs_list : list (observation V))
    (var_name unit : string) (value : V) : list (observation V) :=
  match obs_list with
  | [] => [Obs var_name value unit]
  | it :: rest =>
      if String.eqb (obs_name it) var_name
      then Obs (obs_name it) value unit :: rest
      else it :: _ensure_filled rest var_name unit value
  end.

(** The entries a scan for [var_name] stops at. *)
Definition named {V : Type} (var_name : string) (it : observation V) : bool :=
  String.eqb (obs_name it) var_name.

Section Helpers.
Context {F : Type} `{PyFloat F}.

(** [sorted(values)]: stable, by [<]. *)
Fixpoint insert_sorted (x : F) (l : list F) : list F :=
  match l with
  | [] => [x]
  | y :: r => if fltb x y then x :: y :: r else y :: insert_sorted x r
  end.

Definition sorted (values : list F) : list F :=
  fold_left (fun acc x => insert_sorted x acc) values [].

(** [sum(values)]: from 0, left to right. *)
Definition sum (values : list F) : F := fold_left fadd values (num 0).

Definition len (values : list F) : F := num (inject_Z (Z.of_nat (List.length values))).

(** [_p90]: no value for the empty list, else [arr[k]] with
    [k = int(round(0.9 * (len(arr) - 1)))]. *)
Definition _p90 (values : list F) : option F :=
  match values with
  | [] => None
  | _ =>
      let arr := sorted values in
      let k := fround_int (num 0.9 * num (inject_Z (Z.of_nat (List.length arr) - 1)))%py in
      nth_error arr (Z.to_nat k)
  end.

(** [a or b] where [a] is a float or None: None and zero are falsy. *)
Definition py_or (a : option F) (b : F) : F :=
  match a with
  | Some x => if fis_zero x then b else x
  | None => b
  end.

(** The comprehension of [_stats]: drops None and nan. *)
Definition clean_values (values : list (option F)) : list F :=
  flat_map (fun v => match v with
                     | Some x => if fis_nan x then [] else [x]
                     | None => []
                     end) values.

Definition _stats (values : list (option F)) : option (stats F) :=
  match values with
  | [] => None
  | _ =>
      match clean_values values with
      | [] => None
      | (c0 :: _) as clean =>
          let mean := (sum clean / len clean)%py in
          Some (Stats (fround mean 3)
                      (fround (py_or (_p90 clean) mean) 3)
                      (List.last clean c0))
      end
  end.

(** *** The deterministic synthetic value generator *)

Section Generator.
(** The hash secret of the running interpreter. *)
Variable process : SipHash.secret.

Definition _seed_from (lat lon : F) (dt_iso var : string) : Z :=
  let s := (ffixed 4 lat ++ "," ++ ffixed 4 lon ++ "|" ++ dt_iso ++ "|" ++ var)%string in
  Z.abs (SipHash.py_hash process s) mod (2 ^ 31 - 1).

Definition _fake_uniform (lat lon : F) (dt_iso var : string) (lo hi : F)
    (decimals : nat) : F :=
  let rnd := MT.seed (_seed_from lat lon dt_iso var) in
  let val := fst (MT.uniform rnd lo hi) in
  fround val decimals.
End Generator.

End Helpers.

(** ** Shared types: app/schemas/common.py, app/core/config.py, app/utils *)

Record DataSource := {
  src_name : string;
  src_url : string;
  src_note : option string;
  src_auth_required : bool;
}.

Record Settings := {
  earthdata_username : option string;
  earthdata_password : option string;
  openaq_api_key : option string;
  airnow_api_key : option string;
  worldview_base : string;
}.

(** A timestamp after [parse_date]: always UTC. *)
Record datetime := {
  year : Z; month : Z; day : Z;
  hour : Z; minute : Z; second : Z; microsecond : Z;
}.

Definition string_of_Z (z : Z) : string :=
  if z <? 0 then String "-" (string_of_nonneg (- z)) else string_of_nonneg z.

Definition digits (width : nat) (z : Z) : string := zero_pad width (string_of_nonneg z).

(** [dt.isoformat()] of an aware UTC datetime. *)
Definition isoformat (dt : datetime) : string :=
  (digits 4 (year dt) ++ "-" ++ digits 2 (month dt) ++ "-" ++ digits 2 (day dt) ++ "T" ++
   digits 2 (hour dt) ++ ":" ++ digits 2 (minute dt) ++ ":" ++ digits 2 (second dt) ++
   (if (microsecond dt =? 0)%Z then "" else "." ++ digits 6 (microsecond dt)) ++ "+00:00")%string.

(** What can be raised below the router.  [HTTPStatusError] is what
    [raise_for_status] raises on a non-2xx response; [TransportError] stands
    for httpx's request errors (no connection, time-out: no response at all);
    [DecodingError] for a body that [r.json()] cannot parse; the last three
    for payloads of an unexpected shape. *)
Inductive exn :=
| HTTPStatusError (status_code : Z) (msg : string)
| TransportError (msg : string)
| DecodingError (msg : string)
| AttributeError (msg : string)
| TypeError (msg : string)
| LookupError (msg : string).

Definition exn_str (e : exn) : string :=
  match e with
  | HTTPStatusError _ m | TransportError m | DecodingError m
  | AttributeError m | TypeError m | LookupError m => m
  end.

(** A call either returns or raises. *)
Inductive result (A : Type) :=
| Return (a : A)
| Raise (e : exn).
Arguments Return {A} _.
Arguments Raise {A} _.

Definition bind {A B : Type} (m : result A) (k : A -> result B) : result B :=
  match m with
  | Return a => k a
  | Raise e => Raise e
  end.

Notation "x <- m ;; k" := (bind m (fun x => k))
  (at level 61, m at next level, right associativity).
Notation "' p <- m ;; k" := (bind m (fun x => let p := x in k))
  (at level 61, p pattern, m at next level, right associativity).

(** [try: body  except Exception: handler]. *)
Definition try_except {A : Type} (body : result A) (handler : exn -> result A) : result A :=
  match body with
  | Return a => Return a
  | Raise e => handler e
  end.

(** [try: body  except httpx.HTTPStatusError as e: handler]: anything else
    that is raised goes on to the caller. *)
Definition try_except_status {A : Type} (body : result A)
    (handler : Z -> result A) : result A :=
  match body with
  | Return a => Return a
  | Raise (HTTPStatusError code _) => handler code
  | Raise e => Raise e
  end.

(** [try: x = body  except httpx.HTTPStatusError as e: return handler], then
    the rest of the function with [x]. *)
Definition try_status {A B : Type} (body : result A) (handler : Z -> result B)
    (rest : A -> result B) : result B :=
  match body with
  | Return a => rest a
  | Raise (HTTPStatusError code _) => handler code
  | Raise e => Raise e
  end.

Definition raises {A : Type} (m : result A) : Prop := exists e, m = Raise e.
Definition returns {A : Type} (m : result A) : Prop := exists a, m = Return a.

(** Truthiness of an optional string: set and not empty. *)
Definition nonempty (s : option string) : bool :=
  match s with
  | Some (String _ _) => true
  | _ => false
  end.

(** ** Requests and responses: app/schemas *)

Record Location (F : Type) := { lat : F; lon : F }.
Arguments lat {F} _.
Arguments lon {F} _.

Inductive mode := raw | predict.

Record BaseDataQuery (F : Type) := {
  location : Location F;
  when : option string;
  radius_km : option F;
  location_name : option string;
  output_mode : mode;
}.
Arguments location {F} _.
Arguments when {F} _.
Arguments radius_km {F} _.
Arguments location_name {F} _.
Arguments output_mode {F} _.

Module AirQualityDataQuery.
Record t (F : Type) := {
  base : BaseDataQuery F;
  include_ground : bool;
  include_sat : bool;
  gibs_layer : string;
}.
Arguments base {F} _.
Arguments include_ground {F} _.
Arguments include_sat {F} _.
Arguments gibs_layer {F} _.
End AirQualityDataQuery.

Module PrecipDataQuery.
Record t (F : Type) := { base : BaseDataQuery F; hours_back : Z; hours_fwd : Z }.
Arguments base {F} _.
Arguments hours_back {F} _.
Arguments hours_fwd {F} _.
End PrecipDataQuery.

Module TemperatureDataQuery.
Record t (F : Type) := { base : BaseDataQuery F; days_back : Z; days_fwd : Z }.
Arguments base {F} _.
Arguments days_back {F} _.
Arguments days_fwd {F} _.
End TemperatureDataQuery.

Module WindDataQuery.
Record t (F : Type) := { base : BaseDataQuery F; hours_back : Z; hours_fwd : Z }.
Arguments base {F} _.
Arguments hours_back {F} _.
Arguments hours_fwd {F} _.
End WindDataQuery.

(** The "time" block of a predict-mode body. *)
Record time_block := { datetime_iso : string; horizon_hours : Z }.

(** "extra_context": the notes, the names filled by the generator, and the
    other string entries (primary_metric, unit). *)
Record extra_context := {
  notes : string;
  faker_filled : list string;
  other_entries : list (string * string);
}.

(** The dict a predict-mode request answers with; [V] is what an observation
    holds. *)
Record predict_body (F V : Type) := {
  body_location_name : string;
  point : F * F;
  time : time_block;
  recent_observations : list (observation V);
  context : extra_context;
  _sources : option (list DataSource);
}.
Arguments body_location_name {F V} _.
Arguments point {F V} _.
Arguments time {F V} _.
Arguments recent_observations {F V} _.
Arguments context {F V} _.
Arguments _sources {F V} _.

(** [DataBundle], what a raw-mode request answers with. *)
Record DataBundle (F A : Type) := {
  bundle_location : Location F;
  timestamp : string;
  sources : list DataSource;
  artifacts : A;
}.
Arguments bundle_location {F A} _.
Arguments timestamp {F A} _.
Arguments sources {F A} _.
Arguments artifacts {F A} _.

Inductive response (F V A : Type) :=
| Predict (body : predict_body F V)
| Raw (bundle : DataBundle F A).
Arguments Predict {F V A} _.
Arguments Raw {F V A} _.

(** [s.replace(old, new)]. *)
Fixpoint replace (fuel : nat) (old new s : string) : string :=
  match fuel with
  | O => s
  | S f =>
      if (String.prefix old s && negb (String.eqb old ""))%bool
      then (new ++ replace f old new
                     (String.substring (String.length old)
                                       (String.length s - String.length old) s))%string
      else match s with
           | EmptyString => EmptyString
           | String c rest => String c (replace f old new rest)
           end
  end.

Definition str_replace (s old new : string) : string :=
  replace (S (String.length s)) old new s.

(** [sep.join(items)]. *)
Fixpoint join (sep : string) (items : list string) : string :=
  match items with
  | [] => ""
  | [x] => x
  | x :: rest => (x ++ sep ++ join sep rest)%string
  end.

(** ** JSON payloads *)

(** A parsed JSON document, as [r.json()] returns it. *)
Inductive json (F : Type) :=
| JNull
| JBool (b : bool)
| JInt (z : Z)
| JFloat (x : F)
| JStr (s : string)
| JList (l : list (json F))
| JDict (kv : list (string * json F)).
Arguments JNull {F}.
Arguments JBool {F} _.
Arguments JInt {F} _.
Arguments JFloat {F} _.
Arguments JStr {F} _.
Arguments JList {F} _.
Arguments JDict {F} _.

Definition lower_ascii (c : ascii) : ascii :=
  let n := nat_of_ascii c in
  if ((65 <=? n) && (n <=? 90))%nat then ascii_of_nat (n + 32) else c.

Definition upper_ascii (c : ascii) : ascii :=
  let n := nat_of_ascii c in
  if ((97 <=? n) && (n <=? 122))%nat then ascii_of_nat (n - 32) else c.

Definition map_string (f : ascii -> ascii) (s : string) : string :=
  string_of_list_ascii (map f (list_ascii_of_string s)).

Definition lower : string -> string := map_string lower_ascii.
Definition upper : string -> string := map_string upper_ascii.

Fixpoint assoc {A : Type} (key : string) (kv : list (string * A)) : option A :=
  match kv with
  | [] => None
  | (k, v) :: rest => if String.eqb k key then Some v else assoc key rest
  end.

Section Json.
Context {F : Type} {HF : PyFloat F}.

Definition truthy (j : json F) : bool :=
  match j with
  | JNull => false
  | JBool b => b
  | JInt z => negb (z =? 0)
  | JFloat x => negb (fis_zero x)
  | JStr s => negb (String.eqb s "")
  | JList l => match l with [] => false | _ => true end
  | JDict kv => match kv with [] => false | _ => true end
  end.

(** [a or b]. *)
Definition jor (a b : json F) : json F := if truthy a then a else b.

(** [d.get(key, default)]: only a dict has [get]. *)
Definition jget (d : json F) (key : string) (default : json F) : result (json F) :=
  match d with
  | JDict kv => Return (match assoc key kv with Some v => v | None => default end)
  | _ => Raise (AttributeError "object has no attribute 'get'")
  end.

(** [x[0]]. *)
Definition jfirst (x : json F) : result (json F) :=
  match x with
  | JList (a :: _) => Return a
  | JList [] => Raise (LookupError "list index out of range")
  | JDict _ => Raise (LookupError "0")
  | JStr (String c _) => Return (JStr (String c ""))
  | JStr "" => Raise (LookupError "string index out of range")
  | _ => Raise (TypeError "object is not subscriptable")
  end.

(** [for x in xs]: the items the loop sees. *)
Definition jiter (xs : json F) : result (list (json F)) :=
  match xs with
  | JList l => Return l
  | JDict kv => Return (map (fun p => JStr (fst p)) kv)
  | JStr s => Return (map (fun c => JStr (String c "")) (list_ascii_of_string s))
  | _ => Raise (TypeError "object is not iterable")
  end.

(** Sensor ids as dict keys: ints or strings. *)
Definition key_eqb (a b : json F) : bool :=
  match a, b with
  | JInt x, JInt y => x =? y
  | JStr x, JStr y => String.eqb x y
  | _, _ => false
  end.

Definition hashable (j : json F) : bool :=
  match j with
  | JList _ | JDict _ => false
  | _ => true
  end.

Definition is_none (j : json F) : bool :=
  match j with JNull => true | _ => false end.

(** [(x or "").lower()]. *)
Definition jlower (x : json F) : result string :=
  match jor x (JStr "") with
  | JStr s => Return (lower s)
  | _ => Raise (AttributeError "object has no attribute 'lower'")
  end.

(** [val * 1000.0]. *)
Definition jtimes1000 (val : json F) : result (json F) :=
  match val with
  | JInt z => Return (JFloat (num (inject_Z z) * num 1000)%py)
  | JFloat x => Return (JFloat (x * num 1000)%py)
  | JBool b => Return (JFloat (num (if b then 1 else 0) * num 1000)%py)
  | _ => Raise (TypeError "unsupported operand type(s) for *")
  end.

(** [f"{x}"] of an id. *)
Definition jstr_id (j : json F) : string :=
  match j with
  | JInt z => string_of_Z z
  | JStr s => s
  | JNull => "None"
  | JBool true => "True"
  | JBool false => "False"
  | _ => "?"
  end.

(** [for x in xs: body]: the body runs on each item in turn, with the
    state the previous ones left. *)
Fixpoint for_each {S : Type} (xs : list (json F)) (st : S)
    (body : json F -> S -> result S) : result S :=
  match xs with
  | [] => Return st
  | x :: rest => st' <- body x st ;; for_each rest st' body
  end.

End Json.

(** ** The provider adapters *)

(** What a request runs in: the settings, the clock, the network, the
    interpreter. *)
Record Environment (F : Type) := {
  (** Process-wide, read-only settings. *)
  settings : Settings;
  (** [utils.time.parse_date]: the UTC timestamp of a request's [when], the
      clock's when there is none. *)
  parse_date : option string -> datetime;
  (** [utils.http.get_text(url, auth=...)]: the body, or what the request
      raised. *)
  get_text : string -> option (string * string) -> result string;
  (** [utils.http.get_json(url, headers=...)]: the parsed body, or what the
      request raised ([raise_for_status], the transport, the JSON decoder). *)
  get_json : string -> list (string * string) -> result (json F);
  (** The regular expressions of the adapters, each with [float] applied to
      what it captures: [re.search] of "VAR[i][j][k] = number" in merra2.py;
      [re.findall] of "precipitationCal[i][j] = number" and, on the text
      after the last "Data:", of any number, in imerg.py. *)
  search_scalar : string -> string -> option F;
  findall_precip : string -> list F;
  findall_numbers : string -> list F;
  data_section : string -> string;
  (** [str(x)] of a float, as an f-string interpolates it. *)
  str_float : F -> string;
  (** The hash secret of the running interpreter. *)
  process : SipHash.secret;
}.
Arguments settings {F} _.
Arguments parse_date {F} _ _.
Arguments get_text {F} _ _ _.
Arguments get_json {F} _ _ _.
Arguments search_scalar {F} _ _ _.
Arguments findall_precip {F} _ _.
Arguments findall_numbers {F} _ _.
Arguments data_section {F} _ _.
Arguments str_float {F} _ _.
Arguments process {F} _.

Section Service.
Context {F : Type} {HF : PyFloat F} {HS : PySqrt F}.
Variable env : Environment F.

Local Abbreviation settings := (settings env).
Local Abbreviation parse_date := (parse_date env).
Local Abbreviation get_text := (get_text env).
Local Abbreviation get_json := (get_json env).
Local Abbreviation search_scalar := (search_scalar env).
Local Abbreviation findall_precip := (findall_precip env).
Local Abbreviation findall_numbers := (findall_numbers env).
Local Abbreviation data_section := (data_section env).
Local Abbreviation str_float := (str_float env).
Local Abbreviation process := (process env).

Definition earthdata_auth : option (string * string) :=
  match earthdata_username settings, earthdata_password settings with
  | Some u, Some p =>
      if nonempty (Some u) && nonempty (Some p) then Some (u, p) else None
  | _, _ => None
  end.

(** *** app/services/merra2.py *)

Definition _m2_idx_lat (lat : F) : Z := fround_int ((lat + num 90) / num 0.5)%py.
Definition _m2_idx_lon (lon : F) : Z := fround_int ((lon + num 180) / num 0.625)%py.
Definition _m2_time_idx (dt : datetime) : Z := hour dt.
Definition _m2_stream_for_year (year : Z) : string := "400".

Definition _merra2_ascii_url (dt : datetime) : string :=
  let stream := _m2_stream_for_year (year dt) in
  ("https://goldsmr4.gesdisc.eosdis.nasa.gov/opendap/MERRA2/" ++
   "M2T1NXSLV.5.12.4/" ++
   digits 4 (year dt) ++ "/" ++ digits 2 (month dt) ++ "/MERRA2_" ++ stream ++
   ".tavg1_2d_slv_Nx." ++ digits 4 (year dt) ++ digits 2 (month dt) ++
   digits 2 (day dt) ++ ".nc4.ascii")%string.

(** The grid indices [_fetch_m2_scalar] asks for, after its two clamps. *)
Definition m2_indices (lat lon : F) : Z * Z :=
  let j := _m2_idx_lat lat in
  let i := _m2_idx_lon lon in
  let j := Z.max 0 (Z.min 360 j) in
  let i := Z.max 0 (Z.min 575 i) in
  (j, i).

Definition slice (a b : Z) : string :=
  ("[" ++ string_of_Z a ++ ":" ++ string_of_Z b ++ "]")%string.

Definition m2_url (var : string) (lat lon : F) (when_iso : option string) : string :=
  let dt := parse_date when_iso in
  let url_base := _merra2_ascii_url dt in
  let t := _m2_time_idx dt in
  let '(j, i) := m2_indices lat lon in
  (url_base ++ "?" ++ var ++ slice t t ++ slice j j ++ slice i i)%string.

Definition _fetch_m2_scalar (var : string) (lat lon : F) (when_iso : option string)
  : result (option F * DataSource) :=
  let url := m2_url var lat lon when_iso in
  let auth := earthdata_auth in
  try_except
    (txt <- get_text url auth ;;
     match search_scalar var txt with
     | None =>
         Return (None, {| src_name := "MERRA-2 " ++ var ++ " (ascii subset)";
                          src_url := url;
                          src_note := Some "Sin valor (subsetting vació o índice fuera de rango)"%string;
                          src_auth_required := true |})
     | Some val =>
         Return (Some val, {| src_name := "MERRA-2 " ++ var;
                              src_url := url;
                              src_note := Some "OPeNDAP subset .ascii"%string;
                              src_auth_required := true |})
     end)
    (fun _ =>
       Return (None, {| src_name := "MERRA-2 " ++ var ++ " (error)";
                        src_url := url;
                        src_note := Some "Fallo OPeNDAP/credenciales"%string;
                        src_auth_required := true |})).

Definition fetch_t2m_c (lat lon : F) (when_iso : option string)
  : result (option F * DataSource) :=
  '(v, src) <- _fetch_m2_scalar "T2M" lat lon when_iso ;;
  match v with
  | None => Return (None, src)
  | Some v => Return (Some (v - num 273.15)%py, src)
  end.

Definition fetch_rh2m (lat lon : F) (when_iso : option string)
  : result (option F * DataSource) :=
  _fetch_m2_scalar "RH2M" lat lon when_iso.



(** *** app/services/imerg.py *)

Definition _imerg_idx_lat (lat : F) : Z := fround_int ((lat + num 90) * num 10)%py.
Definition _imerg_idx_lon (lon : F) : Z := fround_int ((lon + num 180) * num 10)%py.

Definition _half_hour_window (dt : datetime) : datetime * datetime :=
  let minute := if minute dt <? 30 then 0 else 30 in
  let start := {| year := year dt; month := month dt; day := day dt; hour := hour dt;
                  minute := minute; second := 0; microsecond := 0 |} in
  (start, {| year := year dt; month := month dt; day := day dt; hour := hour dt;
             minute := minute + 29; second := 59; microsecond := 0 |}).

Definition hms (dt : datetime) : string :=
  (digits 2 (hour dt) ++ digits 2 (minute dt) ++ digits 2 (second dt))%string.

Definition ymd (dt : datetime) : string :=
  (digits 4 (year dt) ++ digits 2 (month dt) ++ digits 2 (day dt))%string.

Definition _imerg_granule_name (dt : datetime) : string :=
  let '(s, e) := _half_hour_window dt in
  ("3B-HHR-L.MS.MRG.3IMERG." ++ ymd dt ++ "-S" ++ hms s ++ "-E" ++ hms e ++ ".V07B.HDF5")%string.

Definition build_imerg_ascii_url (dt : datetime) : string :=
  let coll := "GPM_3IMERGHH.07"%string in
  let fname := _imerg_granule_name dt in
  ("https://gpm1.gesdisc.eosdis.nasa.gov/opendap/GPM_L3/" ++ coll ++ "/" ++
   digits 4 (year dt) ++ "/" ++ digits 2 (month dt) ++ "/" ++ digits 2 (day dt) ++ "/" ++
   fname ++ ".ascii")%string.

(** The window [fetch_imerg_rate_mm_per_hr] asks for: rows [y0:y1], columns
    [x0:x1]. *)
Definition imerg_window (lat lon : F) (radius_cells : Z) : (Z * Z) * (Z * Z) :=
  let iy := _imerg_idx_lat lat in
  let ix := _imerg_idx_lon lon in
  let '(y0, y1) := (Z.max 0 (iy - radius_cells), Z.min 1799 (iy + radius_cells)) in
  let '(x0, x1) := (Z.max 0 (ix - radius_cells), Z.min 3599 (ix + radius_cells)) in
  ((y0, y1), (x0, x1)).

Definition imerg_url (lat lon : F) (when_iso : option string) (radius_cells : Z) : string :=
  let dt := parse_date when_iso in
  let url_base := build_imerg_ascii_url dt in
  let '((y0, y1), (x0, x1)) := imerg_window lat lon radius_cells in
  let q := ("?precipitationCal" ++ slice y0 y1 ++ slice x0 x1)%string in
  (url_base ++ q)%string.

Definition fetch_imerg_rate_mm_per_hr (lat lon : F) (when_iso : option string)
    (radius_cells : Z) : result (option F * DataSource) :=
  let url := imerg_url lat lon when_iso radius_cells in
  let auth := earthdata_auth in
  try_except
    (txt <- get_text url auth ;;
     let vals := findall_precip txt in
     let vals := match vals with
                 | [] => findall_numbers (data_section txt)
                 | _ => vals
                 end in
     match vals with
     | [] => Return (None, {| src_name := "IMERG (ascii subset)"; src_url := url;
                              src_note := Some "Sin datos en píxel"%string;
                              src_auth_required := true |})
     | _ => let avg := (sum vals / len vals)%py in
            Return (Some avg, {| src_name := "IMERG precipitationCal (mm/h)"; src_url := url;
                                 src_note := Some "OPeNDAP subset .ascii"%string;
                                 src_auth_required := true |})
     end)
    (fun ex =>
       Return (None, {| src_name := "IMERG (error)"; src_url := url;
                        src_note := Some ("Fallo OPeNDAP/credenciales: " ++ exn_str ex)%string;
                        src_auth_required := true |})).

(** *** app/services/openaq_airnow.py *)

Definition _headers : list (string * string) :=
  match openaq_api_key settings with
  | Some key => if nonempty (Some key) then [("X-API-Key"%string, key)] else []
  | None => []
  end.

(** What the detail call says of one sensor. *)
Record sensor_meta := { meta_name : string; meta_units : json F; meta_display : json F }.

Fixpoint sensor_put (sid : json F) (m : sensor_meta) (sm : list (json F * sensor_meta))
  : list (json F * sensor_meta) :=
  match sm with
  | [] => [(sid, m)]
  | (k, v) :: rest =>
      if key_eqb k sid then (k, m) :: rest else (k, v) :: sensor_put sid m rest
  end.

Fixpoint sensor_find (sid : json F) (sm : list (json F * sensor_meta)) : option sensor_meta :=
  match sm with
  | [] => None
  | (k, v) :: rest => if key_eqb k sid then Some v else sensor_find sid rest
  end.

Definition mem_string (s : string) (l : list string) : bool :=
  existsb (String.eqb s) l.

Definition openaq_source (name url : string) : DataSource :=
  {| src_name := name; src_url := url;
     src_note := Some "OpenAQ v3 locations→latest"%string;
     src_auth_required := true |}.

Definition openaq_error (code : Z) (url : string) : result (json F * DataSource) :=
  Return (JDict [("error"%string, JStr ("OpenAQ " ++ string_of_Z code))],
          openaq_source "OpenAQ v3 (error)" url).

(** Body of the loop over the station's sensors. *)
Definition sensor_step (s : json F) (sensor_map : list (json F * sensor_meta))
  : result (list (json F * sensor_meta)) :=
  sid <- jget s "id" JNull ;;
  p0 <- jget s "parameter" JNull ;;
  let p := jor p0 (JDict []) in
  if is_none sid then Return sensor_map
  else
    pname <- jget p "name" JNull ;;
    name <- jlower pname ;;
    units <- jget p "units" JNull ;;
    display <- jget p "displayName" JNull ;;
    if hashable sid
    then Return (sensor_put sid {| meta_name := name; meta_units := units;
                                   meta_display := display |} sensor_map)
    else Raise (TypeError "unhashable type").

(** Body of the loop over the latest values. *)
Definition latest_step (sensor_map : list (json F * sensor_meta)) (wanted : list string)
    (r : json F) (observations : list (json F)) : result (list (json F)) :=
  sid <- jget r "sensorsId" JNull ;;
  if negb (hashable sid) then Raise (TypeError "unhashable type")
  else
    match sensor_find sid sensor_map with
    | None => Return observations
    | Some meta =>
        let pname := meta_name meta in
        let units := meta_units meta in
        val <- jget r "value" JNull ;;
        if mem_string pname wanted && negb (is_none val)
        then
          '(val, units) <-
            (if mem_string pname ["no2"; "o3"]%string
                && match units with JStr u => String.eqb u "ppm" | _ => false end
             then v <- jtimes1000 val ;; Return (v, JStr "ppb")
             else Return (val, units)) ;;
          let out_name := if String.eqb pname "pm25" then "PM2.5"%string else upper pname in
          Return (observations ++
                  [JDict [("name"%string, JStr out_name); ("value"%string, val);
                          ("unit"%string, units)]])
        else Return observations
    end.

Definition openaq_latest_nearby_values (lat lon radius_km : F) (wanted : list string)
  : result (json F * DataSource) :=
  let meters := fint (radius_km * num 1000)%py in
  let h := _headers in
  (* 1) the nearest station *)
  let locs_url :=
    ("https://api.openaq.org/v3/locations?" ++
     "coordinates=" ++ str_float lat ++ "," ++ str_float lon ++ "&radius=" ++
     string_of_Z meters ++ "&limit=1&order_by=distance&sort=asc")%string in
  try_status (get_json locs_url h) (fun code => openaq_error code locs_url) (fun locs =>
  locs_res <- jget (jor locs (JDict [])) "results" (JList []) ;;
  if negb (truthy locs_res)
  then Return (JDict [("warning"%string, JStr "No nearby OpenAQ locations")],
               openaq_source "OpenAQ locations" locs_url)
  else
    loc <- jfirst locs_res ;;
    loc_id <- jget loc "id" JNull ;;
    (* 2) the station's sensors *)
    let loc_detail_url := ("https://api.openaq.org/v3/locations/" ++ jstr_id loc_id)%string in
    try_status (get_json loc_detail_url h) (fun code => openaq_error code loc_detail_url)
      (fun loc_detail =>
    res <- jget loc_detail "results" JNull ;;
    loc_detail_res <- jfirst (jor res (JList [JDict []])) ;;
    sensors <- jget loc_detail_res "sensors" JNull ;;
    items <- jiter (jor sensors (JList [])) ;;
    sensor_map <- for_each items [] sensor_step ;;
    (* 3) latest *)
    let latest_url :=
      ("https://api.openaq.org/v3/locations/" ++ jstr_id loc_id ++ "/latest")%string in
    try_status (get_json latest_url h) (fun code => openaq_error code latest_url)
      (fun latest =>
    results <- jget latest "results" (JList []) ;;
    rows <- jiter results ;;
    observations <- for_each rows [] (latest_step sensor_map wanted) ;;
    Return (JDict [("location_id"%string, loc_id);
                   ("observations"%string, JList observations)],
            openaq_source "OpenAQ latest by location (v3)" latest_url)))).

Definition airnow_nearby (lat lon distance_miles : F) : result (json F * DataSource) :=
  match airnow_api_key settings with
  | Some (String c key') =>
      let key := String c key' in
      let url :=
        ("https://www.airnowapi.org/aq/observation/latLong/current/" ++
         "?format=application/json&latitude=" ++ str_float lat ++ "&longitude=" ++
         str_float lon ++ "&distance=" ++ str_float distance_miles ++
         "&API_KEY=" ++ key)%string in
      try_except_status
        (data <- get_json url [] ;;
         Return (data, {| src_name := "AirNow observations"; src_url := url;
                          src_note := Some "Requiere API key."%string;
                          src_auth_required := true |}))
        (fun code =>
           Return (JDict [("error"%string, JStr ("AirNow " ++ string_of_Z code))],
                   {| src_name := "AirNow (error)"; src_url := url;
                      src_note := Some "Verifica API key y parámetros."%string;
                      src_auth_required := true |}))
  | _ =>
      Return (JDict [("warning"%string, JStr "AIRNOW_API_KEY not set")],
              {| src_name := "AirNow observations";
                 src_url := "https://www.airnowapi.org/aq/observation/latLong/current/?format=application/json&latitude=..&longitude=..&distance=..&API_KEY=<REQUIRED>";
                 src_note := Some "Requiere API key."%string;
                 src_auth_required := true |})
  end.

(** *** The URL templates of raw mode *)

Definition merra2_urls (variables : list string) (date_iso : option string)
  : list DataSource :=
  let collection := "M2T1NXSLV.5.12.4"%string in
  let base := "https://goldsmr4.gesdisc.eosdis.nasa.gov/opendap/MERRA2"%string in
  [ {| src_name := "MERRA-2 (OPeNDAP 1h single-level)";
       src_url := base ++ "/" ++ collection ++ "/<YYYY>/<MM>/MERRA2_<stream>.<YYYYMMDD>.nc4";
       src_note := Some ("Vars: " ++ join ", " variables ++
                         " | Usa subsetting lat/lon/time | Earthdata requerido.")%string;
       src_auth_required := true |} ].

Definition airs_urls (date_iso : option string) : list DataSource :=
  let collection := "AIRS3STD.006"%string in
  let base := "https://acdisc.gesdisc.eosdis.nasa.gov/opendap/Aqua_AIRS_Level3"%string in
  [ {| src_name := "AIRS L3 Daily (OPeNDAP)";
       src_url := base ++ "/" ++ collection ++ "/<YYYY>/<AIRS*.hdf>";
       src_note := Some "Temperatura/humedad diaria; Earthdata requerido."%string;
       src_auth_required := true |} ].

(** [snapshot_geotiff] with its defaults: half a box of 0.2 degrees,
    1024 x 1024, EPSG:4326. *)
Definition snapshot_geotiff (lat lon : F) (when : option string) (layer : string)
  : DataSource :=
  let dt := parse_date when in
  let half := num 0.2 in
  let '(west, south, east, north) :=
    ((lon - half)%py, (lat - half)%py, (lon + half)%py, (lat + half)%py) in
  {| src_name := "GIBS Worldview " ++ layer;
     src_url := (worldview_base settings ++ "?REQUEST=GetSnapshot" ++
                 "&TIME=" ++ digits 4 (year dt) ++ "-" ++ digits 2 (month dt) ++ "-" ++
                 digits 2 (day dt) ++
                 "&BBOX=" ++ str_float south ++ "," ++ str_float west ++ "," ++
                 str_float north ++ "," ++ str_float east ++
                 "&CRS=EPSG:4326&LAYERS=" ++ layer ++
                 "&FORMAT=image/geotiff&WIDTH=1024&HEIGHT=1024")%string;
     src_note := Some "GeoTIFF vía Worldview Snapshots; descarga directa sin autenticación."%string;
     src_auth_required := false |}.

(** *** app/routers/data.py: the endpoints *)

Definition _predict_time_block (dt : datetime) (horizon_hours : Z) : time_block :=
  {| datetime_iso := str_replace (isoformat dt) "+00:00" "Z";
     horizon_hours := horizon_hours |}.

Definition _predict_point (loc : Location F) : F * F := (lat loc, lon loc).

Definition name_or_unknown (n : option string) : string :=
  match n with
  | Some (String c r) => String c r
  | _ => "Unknown"
  end.

(** The generator at the location and time of a request. *)
Definition fake (q : BaseDataQuery F) (dt_iso var : string) (lo hi : Q) (decimals : nat) : F :=
  _fake_uniform process (lat (location q)) (lon (location q)) dt_iso var
                (num lo) (num hi) decimals.


(** POST /data/temperature *)
Definition temperature_data (q : TemperatureDataQuery.t F)
  : result (response F F unit) :=
  let b := TemperatureDataQuery.base q in
  let dt := parse_date (when b) in
  match output_mode b with
  | predict =>
      let faker_filled : list string := [] in
      let dt_iso := isoformat dt in
      '(t2m_c, src_t) <- fetch_t2m_c (lat (location b)) (lon (location b)) (when b) ;;
      let '(t2m_c, faker_filled) :=
        match t2m_c with
        | None => (fake b dt_iso "temperature" (-5) 38 1,
                   faker_filled ++ ["temperature"%string])
        | Some v => (v, faker_filled)
        end in
      '(rh2m, src_rh) <- fetch_rh2m (lat (location b)) (lon (location b)) (when b) ;;
      let '(rh2m, faker_filled) :=
        match rh2m with
        | None => (fake b dt_iso "humidity" 20 95 0, faker_filled ++ ["humidity"%string])
        | Some v => (v, faker_filled)
        end in
      let tmax_24h := fround (t2m_c + fake b dt_iso "tmax_boost" 0.5 6.5 1)%py 1 in
      let tmin_24h := fround (t2m_c - fake b dt_iso "tmin_boost" 0.5 7.0 1)%py 1 in
      let cloud_cover := fake b dt_iso "cloud_cover" 5 95 0 in
      let ro := [ Obs "temperature" t2m_c "°C";
                  Obs "humidity" rh2m "%";
                  Obs "t_max_24h" tmax_24h "°C";
                  Obs "t_min_24h" tmin_24h "°C";
                  Obs "cloud_cover" cloud_cover "%" ] in
      Return (Predict
        {| body_location_name := name_or_unknown (location_name b);
           point := _predict_point (location b);
           time := _predict_time_block dt 72;
           recent_observations := ro;
           context := {| notes := "MERRA-2 T2M/RH2M (con fallback y tmax/tmin fake)";
                         faker_filled := faker_filled;
                         other_entries := [] |};
           _sources := Some [src_t; src_rh] |})
  | raw =>
      let sources := airs_urls (when b) ++
                     merra2_urls ["T2M"; "TMAX"; "TMIN"; "CLD"]%string (when b) ++
                     [snapshot_geotiff (lat (location b)) (lon (location b)) (when b)
                                       "MODIS_Terra_Cloud_Top_Properties"] in
      Return (Raw {| bundle_location := location b; timestamp := isoformat dt;
                     sources := sources; artifacts := tt |})
  end.


End Service.

(** ** Concrete surroundings for the evaluations below *)

Module Fixture.

Definition no_credentials : Settings :=
  {| earthdata_username := None; earthdata_password := None;
     openaq_api_key := None; airnow_api_key := Some "k"%string;
     worldview_base := "https://wvs.earthdata.nasa.gov/api/v1/snapshot" |}.

Definition noon : datetime :=
  {| year := 2024; month := 5; day := 1; hour := 12; minute := 0; second := 0;
     microsecond := 0 |}.

(** The interpreter started with PYTHONHASHSEED=0 and with PYTHONHASHSEED=1. *)
Definition process0 : SipHash.secret := SipHash.secret_of_seed 0.
Definition process1 : SipHash.secret := SipHash.secret_of_seed 1.

(** No network: every request fails before a response arrives. *)
Definition offline {F : Type} (shown : F -> string) : Environment F :=
  {| settings := no_credentials;
     parse_date := fun _ => noon;
     get_text := fun _ _ => Raise (TransportError "connection refused");
     get_json := fun _ _ => Raise (TransportError "connection refused");
     search_scalar := fun _ _ => None;
     findall_precip := fun _ => [];
     findall_numbers := fun _ => [];
     data_section := fun txt => txt;
     str_float := shown;
     process := process0 |}.


(** A stand-in for [str] of a float in the URLs: four decimal places. *)
Definition shown4 {F : Type} `{PyFloat F} (x : F) : string := ffixed 4 x.

Definition base_query {F : Type} (la lo : F) (m : mode) : BaseDataQuery F :=
  {| location := {| lat := la; lon := lo |}; when := Some "2024-05-01T12:00:00Z"%string;
     radius_km := None; location_name := None; output_mode := m |}.

End Fixture.

(** ** What the statements below speak of *)







Module Sample.



Definition four_days : TemperatureDataQuery.t float :=
  {| TemperatureDataQuery.base := Fixture.base_query 40.7%float (-74.0)%float predict;
     TemperatureDataQuery.days_back := 2; TemperatureDataQuery.days_fwd := 4 |}.




(** Six readings of zero and one of 70. *)
Definition mostly_zero : list float := [0; 0; 0; 0; 0; 0; 70]%float.

(** Two readings, one below zero. *)
Definition below_zero : list float := [-1.5; 0]%float.

(** The [(lo, hi, decimals)] of every call of [_fake_uniform] in the router. *)
Definition site (lo hi : Q) (decimals : nat) : Q * Q * nat := (lo, hi, decimals).

Definition call_sites : list (Q * Q * nat) :=
  [ site 5 120 1; site 5 100 0; site 10 120 0; site 0 1 3; site 35 95 0; site 5 35 1;
    site (-5) 38 1; site 20 95 0; site 0.5 6.5 1; site 0.5 7.0 1; site 5 95 0;
    site 2 70 1; site 1.3 1.8 2; site 0 360 0; site 800 1020 0 ].

(** [round(lo + (hi - lo) * r, decimals)] in binary64, and whether it lies in
    [lo, hi]. *)
Definition binary64_value (site : Q * Q * nat) (r : float) : float :=
  let '(lo, hi, decimals) := site in
  fround (num lo + (num hi - num lo) * r)%py decimals.

Definition binary64_inside (site : Q * Q * nat) (r : float) : bool :=
  let '(lo, hi, _) := site in
  PrimFloat.leb (num lo) (binary64_value site r) && PrimFloat.leb (binary64_value site r) (num hi).



End Sample.

(** ** Further pieces of the sources *)


(** The default of [wanted] in [openaq_latest_nearby_values]. *)
Definition default_wanted : list string := ["pm25"; "no2"; "o3"]%string.

(** The list under "observations" of an OpenAQ payload, empty when there is
    none. *)
Definition payload_observations {F : Type} (payload : json F) : list (json F) :=
  match payload with
  | JDict kv => match assoc "observations" kv with
                | Some (JList l) => l
                | _ => []
                end
  | _ => []
  end.

Section AirQualityRaw.
Context {F : Type} {HF : PyFloat F}.

(** The loop of the raw branch of [air_quality_data] that sorts the OpenAQ
    observations into the lists [pm25_vals], [no2_vals] and [o3_vals]. *)
Definition bucket_step (it : json F) (acc : list (json F) * list (json F) * list (json F))
  : result (list (json F) * list (json F) * list (json F)) :=
  let '(pm25_vals, no2_vals, o3_vals) := acc in
  n <- jget it "name" JNull ;;
  name <- jlower n ;;
  val <- jget it "value" JNull ;;
  if is_none val then Return acc
  else if String.eqb name "pm25" then Return (pm25_vals ++ [val], no2_vals, o3_vals)
  else if String.eqb name "no2" then Return (pm25_vals, no2_vals ++ [val], o3_vals)
  else if String.eqb name "o3" then Return (pm25_vals, no2_vals, o3_vals ++ [val])
  else Return acc.

Definition openaq_buckets (openaq_payload : json F)
  : result (list (json F) * list (json F) * list (json F)) :=
  obs <- jget openaq_payload "observations" JNull ;;
  items <- jiter (jor obs (JList [])) ;;
  for_each items ([], [], []) bucket_step.

End AirQualityRaw.

(** Raising anything but [httpx.HTTPStatusError], or returning. *)
Definition no_status_error {A : Type} (r : result A) : Prop :=
  match r with
  | Raise (HTTPStatusError _ _) => False
  | _ => True
  end.

(** An observation as the OpenAQ adapter emits it with the default [wanted]:
    the three keys in order, one of the three display names, a value, and
    for the gases a unit other than ppm. *)
Definition emitted_observation {F : Type} (it : json F) : Prop :=
  exists name val units,
    it = JDict [("name"%string, JStr name); ("value"%string, val); ("unit"%string, units)] /\
    In name ["PM2.5"; "NO2"; "O3"]%string /\
    val <> JNull /\
    (name <> "PM2.5"%string -> units <> JStr "ppm").

(** [dt.isoformat()] without its UTC offset. *)
Definition isoformat_local (dt : datetime) : string :=
  (digits 4 (year dt) ++ "-" ++ digits 2 (month dt) ++ "-" ++ digits 2 (day dt) ++ "T" ++
   digits 2 (hour dt) ++ ":" ++ digits 2 (minute dt) ++ ":" ++ digits 2 (second dt) ++
   (if (microsecond dt =? 0)%Z then "" else "." ++ digits 6 (microsecond dt)))%string.

(** No "+" in a string. *)
Fixpoint plus_free (s : string) : bool :=
  match s with
  | EmptyString => true
  | String c rest => negb (Ascii.eqb c "+") && plus_free rest
  end.

Module More.




(** An OpenAQ station with a PM2.5 sensor, an NO2 sensor reporting in ppm and
    a CO sensor. *)
Definition station_detail : json float :=
  JDict [("results"%string, JList [JDict [("sensors"%string, JList [
    JDict [("id"%string, JInt 1);
           ("parameter"%string, JDict [("name"%string, JStr "pm25");
                                       ("units"%string, JStr "µg/m³")])];
    JDict [("id"%string, JInt 2);
           ("parameter"%string, JDict [("name"%string, JStr "no2");
                                       ("units"%string, JStr "ppm")])];
    JDict [("id"%string, JInt 3);
           ("parameter"%string, JDict [("name"%string, JStr "co");
                                       ("units"%string, JStr "ppm")])]])]])].

Definition station_latest : json float :=
  JDict [("results"%string, JList [
    JDict [("sensorsId"%string, JInt 1); ("value"%string, JFloat 12.5%float)];
    JDict [("sensorsId"%string, JInt 2); ("value"%string, JFloat 0.021%float)];
    JDict [("sensorsId"%string, JInt 3); ("value"%string, JFloat 0.4%float)];
    JDict [("sensorsId"%string, JInt 9); ("value"%string, JInt 1)]])].

Definition station : Environment float :=
  {| settings := Fixture.no_credentials;
     parse_date := fun _ => Fixture.noon;
     get_text := fun _ _ => Raise (TransportError "connection refused");
     get_json := fun url _ =>
       if String.eqb url "https://api.openaq.org/v3/locations/8118"
       then Return station_detail
       else if String.eqb url "https://api.openaq.org/v3/locations/8118/latest"
       then Return station_latest
       else Return (JDict [("results"%string, JList [JDict [("id"%string, JInt 8118)]])]);
     search_scalar := fun _ _ => None;
     findall_precip := fun _ => [];
     findall_numbers := fun _ => [];
     data_section := fun txt => txt;
     str_float := Fixture.shown4;
     process := Fixture.process0 |}.



End More.

(** * Properties *)

(** ** The arithmetic and the interpreter model against CPython 3.11 *)

Example b64_round_half_even :
  B64.round_int 4.5%float = 4 /\ B64.round_int 13.5%float = 14 /\
  B64.round 2.675%float 2 = 2.67%float /\ B64.round 33.85819923152342%float 1 = 33.9%float.
Proof. repeat split; vm_compute; reflexivity. Qed.

Example b64_fixed4 :
  B64.fixed 4 (-17.7833)%float = "-17.7833"%string /\
  B64.fixed 4 40.7%float = "40.7000"%string /\
  B64.fixed 4 0.00004%float = "0.0000"%string.
Proof. repeat split; vm_compute; reflexivity. Qed.

Example exact_fixed4 :
  Exact.fixed 4 (-177833 # 10000) = "-17.7833"%string /\ Exact.round (2675 # 1000) 2 = (67 # 25)%Q.
Proof. repeat split; vm_compute; reflexivity. Qed.

Example py_hash_seed0 :
  SipHash.py_hash (SipHash.secret_of_seed 0)
    "-17.7833,-63.1821|2024-05-01T12:00:00+00:00|PM2.5" = -7098454714075880298.
Proof. vm_compute. reflexivity. Qed.

Example py_hash_seed1 :
  SipHash.py_hash (SipHash.secret_of_seed 1)
    "-17.7833,-63.1821|2024-05-01T12:00:00+00:00|PM2.5" = -6071524485177066397.
Proof. vm_compute. reflexivity. Qed.

Example mt_first_draw :
  fst (MT.uniform (MT.seed 1270229331) (num 5) (num 120)) = 33.85819923152342%float /\
  fst (MT.uniform (MT.seed 9800274) (num 5) (num 120)) = 48.81493648797195%float.
Proof. split; vm_compute; reflexivity. Qed.

Example stats_10_20_30_40 :
  _stats [Some 10; Some 20; Some 30; Some 40]%float = Some (Stats 25 40 40)%float.
Proof. vm_compute. reflexivity. Qed.

Example stats_empty : _stats (F := float) [] = None /\ _stats [None; Some PrimFloat.nan] = None.
Proof. split; reflexivity. Qed.

Example fake_uniform_pm25 :
  _fake_uniform (SipHash.secret_of_seed 0) (-17.7833)%float (-63.1821)%float
    "2024-05-01T12:00:00+00:00" "PM2.5" (num 5) (num 120) 1 = 33.9%float.
Proof. vm_compute. reflexivity. Qed.

(** ** The upsert helper *)

Section EnsureFilled.
Context {V : Type}.
Implicit Types (obs_list : list (observation V)) (it : observation V).

Lemma ensure_filled_absent obs_list var_name unit value :
  ~ In var_name (map obs_name obs_list) ->
  _ensure_filled obs_list var_name unit value = obs_list ++ [Obs var_name value unit].
Proof.
  induction obs_list as [|it rest IH]; simpl; intros Hn; [reflexivity|].
  destruct (String.eqb_spec (obs_name it) var_name) as [E|E].
  - exfalso. apply Hn. now left.
  - f_equal. apply IH. intros Hin. apply Hn. now right.
Qed.

Lemma ensure_filled_present obs_list var_name unit value :
  In var_name (map obs_name obs_list) ->
  exists before it after,
    obs_list = before ++ it :: after /\
    obs_name it = var_name /\
    ~ In var_name (map obs_name before) /\
    _ensure_filled obs_list var_name unit value
      = before ++ Obs var_name value unit :: after.
Proof.
  induction obs_list as [|it rest IH]; simpl; intros Hin; [contradiction|].
  destruct (String.eqb_spec (obs_name it) var_name) as [E|E].
  - exists [], it, rest. rewrite E. simpl. intuition.
  - destruct Hin as [Hin|Hin]; [contradiction|].
    destruct (IH Hin) as (before & it' & after & -> & Hname & Hb & Hout).
    exists (it :: before), it', after. simpl. rewrite Hout.
    repeat split; auto. intros [H|H]; auto.
Qed.

Lemma filter_named_none obs_list var_name :
  ~ In var_name (map obs_name obs_list) -> filter (named var_name) obs_list = [].
Proof.
  induction obs_list as [|it rest IH]; simpl; intros Hn; [reflexivity|].
  unfold named at 1. destruct (String.eqb_spec (obs_name it) var_name) as [E|E].
  - exfalso. apply Hn. now left.
  - apply IH. intros H. apply Hn. now right.
Qed.

(** C9.  [_ensure_filled] is an upsert.  When an entry named [var_name]
    exists, the first such entry is overwritten where it stands: the entries
    before and after it, hence the length and the order, are unchanged.
    Otherwise a new entry is appended at the end.  When the names were
    pairwise distinct beforehand, the result has exactly one entry with that
    name, and it carries the given value and unit. *)
Theorem ensure_filled_upsert obs_list var_name unit value :
  NoDup (map obs_name obs_list) ->
  let out := _ensure_filled obs_list var_name unit value in
  filter (named var_name) out = [Obs var_name value unit] /\
  (In var_name (map obs_name obs_list) ->
     List.length out = List.length obs_list /\
     exists before it after,
       obs_list = before ++ it :: after /\ obs_name it = var_name /\
       out = before ++ Obs var_name value unit :: after) /\
  (~ In var_name (map obs_name obs_list) ->
     out = obs_list ++ [Obs var_name value unit]).
Proof.
  intros Hnd out. subst out. split; [|split].
  - destruct (in_dec string_dec var_name (map obs_name obs_list)) as [Hin|Hn].
    + destruct (ensure_filled_present obs_list var_name unit value Hin)
        as (before & it & after & Hl & Hname & Hb & ->).
      rewrite Hl, map_app in Hnd. simpl in Hnd.
      apply NoDup_remove_2 in Hnd. rewrite Hname in Hnd.
      rewrite filter_app. simpl. unfold named at 2. simpl.
      rewrite String.eqb_refl.
      rewrite !filter_named_none; [reflexivity| |assumption].
      intros H. apply Hnd. apply in_or_app. now right.
    + rewrite ensure_filled_absent by assumption.
      rewrite filter_app, filter_named_none by assumption.
      simpl. unfold named. simpl. now rewrite String.eqb_refl.
  - intros Hin.
    destruct (ensure_filled_present obs_list var_name unit value Hin)
      as (before & it & after & Hl & Hname & Hb & Hout).
    split.
    + rewrite Hout, Hl, !length_app. reflexivity.
    + exists before, it, after. auto.
  - apply ensure_filled_absent.
Qed.

End EnsureFilled.

Lemma ensure_filled_upsert_witness :
  let obs := [Obs "PM2.5" 12 "µg/m³"; Obs "NO2" 30 "ppb"]%string in
  NoDup (map obs_name obs) /\
  _ensure_filled obs "NO2" "ppb" 41 = [Obs "PM2.5" 12 "µg/m³"; Obs "NO2" 41 "ppb"]%string /\
  filter (named "NO2") (_ensure_filled obs "NO2" "ppb" 41) = [Obs "NO2" 41 "ppb"]%string.
Proof.
  intros obs.
  assert (Hnd : NoDup (map obs_name obs)).
  { simpl. repeat constructor; simpl; intuition discriminate. }
  split; [exact Hnd|]. split; [reflexivity|].
  exact (proj1 (ensure_filled_upsert obs "NO2" "ppb" 41 Hnd)).
Defined.

(** ** The adapters never raise on MERRA-2 and IMERG *)

Section AdapterFacts.
Context {F : Type} {HF : PyFloat F}.
Variable env : Environment F.


(** Whatever the request raises, the adapter answers "absent" with a
    descriptor whose name ends in "(error)". *)
Lemma fetch_m2_scalar_failure var la lo when_iso e :
  get_text env (m2_url env var la lo when_iso) (earthdata_auth env) = Raise e ->
  exists src, _fetch_m2_scalar env var la lo when_iso = Return (None, src) /\
              src_name src = ("MERRA-2 " ++ var ++ " (error)")%string /\
              src_note src = Some "Fallo OPeNDAP/credenciales"%string.
Proof.
  intros Hget. unfold _fetch_m2_scalar, try_except, bind. rewrite Hget.
  eexists. split; [reflexivity|]. split; reflexivity.
Qed.






Lemma fetch_imerg_failure la lo when_iso radius_cells e :
  get_text env (imerg_url env la lo when_iso radius_cells) (earthdata_auth env) = Raise e ->
  exists src, fetch_imerg_rate_mm_per_hr env la lo when_iso radius_cells = Return (None, src) /\
              src_name src = "IMERG (error)"%string.
Proof.
  intros Hget. unfold fetch_imerg_rate_mm_per_hr, try_except, bind. rewrite Hget.
  eexists. split; reflexivity.
Qed.

(** C2.  The station adapters catch [httpx.HTTPStatusError] only.  When the
    request raises anything else (no connection, a time-out, a body that is
    not JSON), the OpenAQ lookup and, with an API key set, the AirNow lookup
    raise it to their caller. *)
Theorem station_adapters_let_failures_escape la lo radius wanted e :
  (forall code msg, e <> HTTPStatusError code msg) ->
  (forall url headers, get_json env url headers = Raise e) ->
  nonempty (airnow_api_key (settings env)) = true ->
  openaq_latest_nearby_values env la lo radius wanted = Raise e /\
  airnow_nearby env la lo radius = Raise e.
Proof.
  intros Hother Hget Hkey. split.
  - unfold openaq_latest_nearby_values, try_status. rewrite Hget.
    destruct e; try reflexivity. now elim (Hother status_code msg).
  - unfold airnow_nearby.
    destruct (airnow_api_key (settings env)) as [[|c key]|]; try discriminate.
    unfold try_except_status, bind. rewrite Hget.
    destruct e; try reflexivity. now elim (Hother status_code msg).
Qed.

(** A non-2xx status, on the other hand, is caught. *)
Lemma openaq_status_caught la lo radius wanted code msg :
  (forall url headers, get_json env url headers = Raise (HTTPStatusError code msg)) ->
  exists payload src, openaq_latest_nearby_values env la lo radius wanted = Return (payload, src) /\
                      src_name src = "OpenAQ v3 (error)"%string.
Proof.
  intros Hget. unfold openaq_latest_nearby_values, try_status. rewrite Hget.
  eexists _, _. split; reflexivity.
Qed.

End AdapterFacts.

Lemma station_adapters_let_failures_escape_witness :
  openaq_latest_nearby_values (Fixture.offline Fixture.shown4)
      (-17.7833)%float (-63.1821)%float 25%float ["pm25"; "no2"; "o3"]%string
    = Raise (TransportError "connection refused") /\
  airnow_nearby (Fixture.offline Fixture.shown4) (-17.7833)%float (-63.1821)%float 25%float
    = Raise (TransportError "connection refused").
Proof.
  apply (station_adapters_let_failures_escape (Fixture.offline Fixture.shown4)).
  - intros code msg. discriminate.
  - intros url headers. reflexivity.
  - reflexivity.
Defined.

(** ** The predict-mode bodies *)

Section RouterFacts.
Context {F : Type} {HF : PyFloat F}.
Variable env : Environment F.

(** What the generator is asked for at the place and time of a request. *)
Lemma fake_unfold (b : BaseDataQuery F) dt_iso var lo hi decimals :
  fake env b dt_iso var lo hi decimals
  = _fake_uniform (process env) (lat (location b)) (lon (location b)) dt_iso var
                  (num lo) (num hi) decimals.
Proof. reflexivity. Qed.



Context {HS : PySqrt F}.




End RouterFacts.





(** ** Exact arithmetic: where the synthetic values lie *)


Lemma rhe_frac_lower p q l : 0 < q -> l * q <= p -> l <= rhe_frac p q.
Proof.
  intros Hq Hl. unfold rhe_frac.
  pose proof (Z.div_mod p q ltac:(lia)) as Hdm.
  pose proof (Z.mod_pos_bound p q Hq) as Hr.
  assert (l <= p / q) by (apply Z.div_le_lower_bound; lia).
  destruct (Z.compare_spec (2 * (p mod q)) q); [destruct (Z.even (p / q))| |]; lia.
Qed.

Lemma rhe_frac_upper p q h : 0 < q -> p <= h * q -> rhe_frac p q <= h.
Proof.
  intros Hq Hh. unfold rhe_frac.
  pose proof (Z.div_mod p q ltac:(lia)) as Hdm.
  pose proof (Z.mod_pos_bound p q Hq) as Hr.
  assert (p / q <= h) by (apply Z.div_le_upper_bound; lia).
  assert (2 * (p mod q) >= q -> p / q < h) by nia.
  destruct (Z.compare_spec (2 * (p mod q)) q); [destruct (Z.even (p / q))| |]; lia.
Qed.











(** In binary64, at the two ends of what [random()] can return, 0 and
    1 - 2^-53, every call of the router stays inside its bounds. *)
Example binary64_draws_at_the_ends :
  forallb (fun site => Sample.binary64_inside site 0%float
                       && Sample.binary64_inside site (1 - 0x1p-53)%float) Sample.call_sites
  = true.
Proof. vm_compute. reflexivity. Qed.





(** The values of that answer, as CPython started with PYTHONHASHSEED=0
    computes them. *)
Example temperature_offline_values :
  match temperature_data (Fixture.offline Fixture.shown4) Sample.four_days with
  | Return (Predict body) =>
      map obs_value (recent_observations body) = [24.2; 64; 30.1; 17.3; 74]%float
  | _ => False
  end.
Proof. vm_compute. reflexivity. Qed.

(** ** The seed depends on the interpreter's hash secret *)

(** C1.  The same location, timestamp, variable, range and precision give one
    value in an interpreter whose hash secret is that of PYTHONHASHSEED=0 and
    another in one whose secret is that of PYTHONHASHSEED=1: [_seed_from]
    goes through the built-in [hash], which is keyed by the secret the process
    draws when it starts. *)
Theorem fake_uniform_differs_across_processes :
  let la := (-17.7833)%float in
  let lo := (-63.1821)%float in
  let dt_iso := "2024-05-01T12:00:00+00:00"%string in
  _seed_from Fixture.process0 la lo dt_iso "PM2.5" = 1270229331 /\
  _seed_from Fixture.process1 la lo dt_iso "PM2.5" = 9800274 /\
  _fake_uniform Fixture.process0 la lo dt_iso "PM2.5" (num 5) (num 120) 1 = 33.9%float /\
  _fake_uniform Fixture.process1 la lo dt_iso "PM2.5" (num 5) (num 120) 1 = 48.8%float.
Proof. cbv zeta. split; [|split; [|split]]; vm_compute; reflexivity. Qed.

(** ** The statistics of the raw air-quality path *)

Section StatsFacts.
Context {F : Type} {HF : PyFloat F}.

Lemma stats_empty_input : _stats (F := F) [] = None.
Proof. reflexivity. Qed.

Lemma stats_all_invalid (values : list (option F)) :
  clean_values values = [] -> _stats values = None.
Proof. intros Hc. unfold _stats. rewrite Hc. now destruct values. Qed.

(** When the value at the rank is not zero, the three figures are the
    rounded mean, the rounded value at the rank, and the last valid value. *)
Lemma stats_nonzero_rank (values : list (option F)) c0 clean x :
  clean_values values = c0 :: clean ->
  _p90 (c0 :: clean) = Some x ->
  fis_zero x = false ->
  _stats values =
    Some (Stats (fround (sum (c0 :: clean) / len (c0 :: clean))%py 3)
                (fround x 3)
                (List.last (c0 :: clean) c0)).
Proof.
  intros Hc Hp Hz. unfold _stats. rewrite Hc.
  destruct values as [|v rest]; [discriminate Hc|].
  rewrite Hp. unfold py_or. now rewrite Hz.
Qed.

(** When it is zero, [or] takes the mean in its place. *)
Lemma stats_zero_rank (values : list (option F)) c0 clean x :
  clean_values values = c0 :: clean ->
  _p90 (c0 :: clean) = Some x ->
  fis_zero x = true ->
  _stats values =
    Some (Stats (fround (sum (c0 :: clean) / len (c0 :: clean))%py 3)
                (fround (sum (c0 :: clean) / len (c0 :: clean))%py 3)
                (List.last (c0 :: clean) c0)).
Proof.
  intros Hc Hp Hz. unfold _stats. rewrite Hc.
  destruct values as [|v rest]; [discriminate Hc|].
  rewrite Hp. unfold py_or. now rewrite Hz.
Qed.

End StatsFacts.

(** C4.  For six readings of 0 and one of 70 the value at rank
    round(0.9 * 6) = 5 of the sorted readings is 0, and [_stats] reports the
    mean, 10, as p90. *)
Theorem stats_reports_mean_for_zero_p90 :
  _p90 Sample.mostly_zero = Some 0%float /\
  _stats (map Some Sample.mostly_zero) = Some (Stats 10 10 70)%float /\
  _p90 Sample.below_zero = Some 0%float /\
  _stats (map Some Sample.below_zero) = Some (Stats (-0.75) (-0.75) 0)%float.
Proof. split; [|split; [|split]]; vm_compute; reflexivity. Qed.

Example stats_with_invalid_entries :
  _stats [Some 3.14159; Some PrimFloat.nan; Some 2.71828; None; Some 1.41421]%float
  = Some (Stats 2.425 3.142 1.41421)%float.
Proof. vm_compute. reflexivity. Qed.

(** ** Grid indices *)

Section GridFacts.
Context {F : Type} {HF : PyFloat F}.

(** MERRA-2: whatever the coordinates, the indices asked for are on the
    grid. *)
Lemma m2_indices_on_grid (la lo : F) :
  let '(j, i) := m2_indices la lo in 0 <= j <= 360 /\ 0 <= i <= 575.
Proof. unfold m2_indices. lia. Qed.

(** IMERG: the lower index of each window is clamped from below only, the
    upper index from above only. *)
Lemma imerg_window_one_sided (la lo : F) (radius_cells : Z) :
  let '((y0, y1), (x0, x1)) := imerg_window la lo radius_cells in
  0 <= y0 /\ y1 <= 1799 /\ 0 <= x0 /\ x1 <= 3599.
Proof. unfold imerg_window. lia. Qed.

End GridFacts.

(** C10.  At latitude 90 and longitude 180, both valid, the IMERG adapter
    asks for rows [1800:1799] and columns [3600:3599]: the lower indices are
    off the 1800 x 3600 grid. *)
Theorem imerg_window_off_grid_at_the_pole :
  imerg_window 90%float 180%float 0 = ((1800, 1799), (3600, 3599)) /\
  m2_indices 90%float 180%float = (360, 575).
Proof. split; vm_compute; reflexivity. Qed.

(** ** Units *)



(** * Further properties *)

(** ** More on the upsert helper *)

Section EnsureFilledMore.
Context {V : Type}.
Implicit Types (obs_list : list (observation V)) (it : observation V).

(** X1.  Two upserts of the same name in a row leave what the second alone
    would: the later write wins, and the list does not grow twice. *)
Theorem ensure_filled_last_write_wins obs_list var_name unit1 value1 unit2 value2 :
  _ensure_filled (_ensure_filled obs_list var_name unit1 value1) var_name unit2 value2
  = _ensure_filled obs_list var_name unit2 value2.
Proof.
  induction obs_list as [|it rest IH]; simpl.
  - now rewrite String.eqb_refl.
  - destruct (String.eqb_spec (obs_name it) var_name) as [E|E]; simpl.
    + now rewrite E, String.eqb_refl.
    + destruct (String.eqb_spec (obs_name it) var_name); [contradiction|].
      now rewrite IH.
Qed.


End EnsureFilledMore.

(** ** Sorting and the rank statistic *)

Section SortedFacts.
Context {F : Type} {HF : PyFloat F}.

Lemma insert_sorted_perm (x : F) l : Permutation (insert_sorted x l) (x :: l).
Proof.
  induction l as [|y r IH]; simpl; [reflexivity|].
  destruct (fltb x y); [reflexivity|].
  rewrite IH. apply perm_swap.
Qed.

Lemma insert_all_perm (values acc : list F) :
  Permutation (fold_left (fun acc x => insert_sorted x acc) values acc) (values ++ acc).
Proof.
  revert acc. induction values as [|x r IH]; intros acc; simpl; [reflexivity|].
  rewrite IH, insert_sorted_perm. symmetry. apply Permutation_middle.
Qed.

Lemma sorted_perm (values : list F) : Permutation (sorted values) values.
Proof. unfold sorted. rewrite insert_all_perm. now rewrite app_nil_r. Qed.

Lemma sorted_length (values : list F) : List.length (sorted values) = List.length values.
Proof. apply Permutation_length, sorted_perm. Qed.

Lemma p90_in_values (values : list F) (x : F) : _p90 values = Some x -> In x values.
Proof.
  intros Hx. destruct values as [|v r]; [discriminate|].
  unfold _p90 in Hx. apply nth_error_In in Hx.
  eapply Permutation_in; [apply sorted_perm|exact Hx].
Qed.

(** X3.  [_p90] answers nothing for the empty list and otherwise, when it
    answers, one of the values it was given. *)
Theorem p90_is_one_of_the_values (values : list F) :
  (values = [] -> _p90 values = None) /\
  (forall x, _p90 values = Some x -> In x values).
Proof.
  split.
  - now intros ->.
  - intros x. apply p90_in_values.
Qed.

Lemma clean_values_valid (values : list (option F)) :
  Forall (fun x => fis_nan x = false) (clean_values values).
Proof.
  induction values as [|[x|] r IH]; simpl; auto.
  destruct (fis_nan x) eqn:E; simpl; auto.
Qed.

Lemma clean_values_of_valid (l : list F) :
  Forall (fun x => fis_nan x = false) l -> clean_values (map Some l) = l.
Proof.
  induction 1 as [|x r Hx _ IH]; simpl; [reflexivity|].
  rewrite Hx. simpl. now f_equal.
Qed.

(** X4.  [_stats] looks at the valid entries only: dropping every None and
    nan beforehand changes nothing, and with no valid entry there is no
    statistics object. *)
Theorem stats_ignores_invalid_entries (values : list (option F)) :
  _stats values = _stats (map Some (clean_values values)) /\
  (_stats values = None <-> clean_values values = []).
Proof.
  split.
  - unfold _stats at 2.
    rewrite (clean_values_of_valid _ (clean_values_valid values)).
    unfold _stats.
    destruct values as [|v r]; [reflexivity|].
    destruct (clean_values (v :: r)) as [|c0 clean]; reflexivity.
  - unfold _stats. destruct values as [|v r]; [simpl; tauto|].
    destruct (clean_values (v :: r)) as [|c0 clean]; split; intros; try discriminate; reflexivity.
Qed.

End SortedFacts.

(** ** The rank statistic in exact arithmetic *)

Lemma exact_ltb_lt (x y : Q) : Exact.ltb x y = true <-> (x < y)%Q.
Proof.
  unfold Exact.ltb. destruct (Qcompare_spec x y) as [E|E|E]; split; intros H;
    try reflexivity; try discriminate; try assumption; exfalso; lra.
Qed.

Lemma exact_ltb_ge (x y : Q) : Exact.ltb x y = false <-> (y <= x)%Q.
Proof.
  unfold Exact.ltb. destruct (Qcompare_spec x y) as [E|E|E]; split; intros H;
    try reflexivity; try discriminate; try lra.
Qed.

Lemma insert_sorted_ascending (x : Q) l :
  StronglySorted Qle l -> StronglySorted Qle (insert_sorted x l).
Proof.
  induction 1 as [|y r Hr IH Hy]; simpl.
  - repeat constructor.
  - cbn [fltb exact_float]. destruct (Exact.ltb x y) eqn:E.
    + apply exact_ltb_lt in E. constructor; [now constructor|].
      constructor; [now apply Qlt_le_weak|].
      eapply Forall_impl; [|exact Hy]. intros z Hz. cbv beta in Hz.
      apply Qle_trans with y; [now apply Qlt_le_weak|exact Hz].
    + apply exact_ltb_ge in E. constructor; [exact IH|].
      eapply Permutation_Forall; [symmetry; apply insert_sorted_perm|].
      now constructor.
Qed.

Lemma insert_all_ascending (values acc : list Q) :
  StronglySorted Qle acc ->
  StronglySorted Qle (fold_left (fun acc x => insert_sorted x acc) values acc).
Proof.
  revert acc. induction values as [|x r IH]; intros acc Hacc; simpl; [exact Hacc|].
  apply IH. now apply insert_sorted_ascending.
Qed.

(** In exact arithmetic [sorted] is ascending. *)
Lemma sorted_ascending (values : list Q) : StronglySorted Qle (sorted values).
Proof. unfold sorted. apply insert_all_ascending. constructor. Qed.

(** The rank [int(round(0.9 * (n - 1)))] for [n] values. *)
Lemma p90_rank_in_range (n : nat) :
  (0 < n)%nat ->
  let k := fround_int (F := Q) (num 0.9 * num (inject_Z (Z.of_nat n - 1)))%py in
  0 <= k <= Z.of_nat n - 1.
Proof.
  intros Hn k. subst k. cbn [fround_int fmul num exact_float]. unfold Exact.round_int.
  set (m := Z.of_nat n - 1). assert (Hm : 0 <= m) by lia.
  set (q := Qred (Qred 0.9 * Qred (inject_Z m))).
  assert (Hq : (0 <= q <= inject_Z m)%Q).
  { subst q. rewrite !Qred_correct.
    assert (0 <= inject_Z m)%Q by (change 0%Q with (inject_Z 0); now rewrite <- Zle_Qle).
    split; lra. }
  destruct Hq as [Hlo Hhi]. unfold Qle in Hlo, Hhi. cbn [Qnum Qden inject_Z] in Hlo, Hhi.
  split.
  - apply rhe_frac_lower; lia.
  - apply rhe_frac_upper; lia.
Qed.

Lemma p90_rank_answer (values : list Q) :
  values <> [] ->
  let k := fround_int (F := Q) (num 0.9 * num (inject_Z (Z.of_nat (List.length values) - 1)))%py in
  exists x, _p90 values = Some x /\ nth_error (sorted values) (Z.to_nat k) = Some x.
Proof.
  intros Hne k.
  assert (Hlen : (0 < List.length values)%nat) by (destruct values; [congruence|simpl; lia]).
  pose proof (p90_rank_in_range (List.length values) Hlen) as Hk. cbv zeta in Hk. fold k in Hk.
  destruct (nth_error (sorted values) (Z.to_nat k)) as [x|] eqn:Hx.
  - exists x. split; [|reflexivity].
    destruct values as [|v r]; [congruence|]. unfold _p90. rewrite sorted_length. exact Hx.
  - exfalso. apply nth_error_None in Hx. rewrite sorted_length in Hx. lia.
Qed.

(** X5.  In exact arithmetic the rank is a valid index: for a non-empty list
    [_p90] always answers, with the entry of the ascending list at rank
    [int(round(0.9 * (n - 1)))], which is at least 0 and at most n - 1. *)
Theorem p90_answers_for_nonempty (values : list Q) :
  values <> [] ->
  let k := fround_int (F := Q) (num 0.9 * num (inject_Z (Z.of_nat (List.length values) - 1)))%py in
  0 <= k <= Z.of_nat (List.length values) - 1 /\
  exists x, _p90 values = Some x /\ nth_error (sorted values) (Z.to_nat k) = Some x /\
            In x values.
Proof.
  intros Hne k. split.
  - apply p90_rank_in_range. destruct values; [congruence|simpl; lia].
  - destruct (p90_rank_answer values Hne) as (x & Hp & Hx).
    exists x. split; [exact Hp|]. split; [exact Hx|]. now apply p90_in_values.
Qed.

Lemma ascending_last_is_max (l : list Q) x :
  StronglySorted Qle l -> nth_error l (List.length l - 1) = Some x ->
  forall y, In y l -> (y <= x)%Q.
Proof.
  induction 1 as [|a r Hr IH Ha]; intros Hx y Hy; [contradiction|].
  destruct r as [|b r'].
  - simpl in Hx. injection Hx as <-. destruct Hy as [<-|[]]. apply Qle_refl.
  - assert (Hx' : nth_error (b :: r') (List.length (b :: r') - 1) = Some x).
    { simpl in *. now rewrite Nat.sub_0_r in *. }
    destruct Hy as [<-|Hy]; [|now apply IH].
    rewrite Forall_forall in Ha. apply Ha. eapply nth_error_In; eauto.
Qed.

(** X6.  In exact arithmetic, for up to five values the rank is the last one:
    [_p90] is the maximum. *)
Theorem p90_of_a_small_sample_is_the_maximum (values : list Q) :
  values <> [] -> (List.length values <= 5)%nat ->
  exists x, _p90 values = Some x /\ In x values /\ forall y, In y values -> (y <= x)%Q.
Proof.
  intros Hne Hlen.
  destruct (p90_rank_answer values Hne) as (x & Hp & Hx).
  exists x. split; [exact Hp|]. split; [now apply p90_in_values|].
  intros y Hy.
  apply (ascending_last_is_max (sorted values) x).
  - apply sorted_ascending.
  - rewrite sorted_length. rewrite <- Hx. f_equal.
    destruct values as [|a [|b [|c [|d [|e [|f r]]]]]];
      [congruence|reflexivity|reflexivity|reflexivity|reflexivity|reflexivity|simpl in Hlen; lia].
  - eapply Permutation_in; [symmetry; apply sorted_perm|exact Hy].
Qed.

Lemma p90_of_a_small_sample_is_the_maximum_witness :
  exists x, _p90 [3; 1; 2]%Q = Some x /\ In x [3; 1; 2]%Q /\
            forall y, In y [3; 1; 2]%Q -> (y <= x)%Q.
Proof.
  apply p90_of_a_small_sample_is_the_maximum; [discriminate|simpl; lia].
Defined.

Lemma p90_answers_for_nonempty_witness :
  exists x, _p90 [3; 1; 2; 10; 7; 4; 5]%Q = Some x /\
            nth_error (sorted [3; 1; 2; 10; 7; 4; 5]%Q) 5 = Some x /\
            In x [3; 1; 2; 10; 7; 4; 5]%Q.
Proof.
  exact (proj2 (p90_answers_for_nonempty [3; 1; 2; 10; 7; 4; 5]%Q ltac:(discriminate))).
Defined.

(** ** The seed *)

Section SeedFacts.
Context {F : Type} {HF : PyFloat F}.

(** X7.  The location enters the generator through its coordinates printed
    with four decimals: two places whose latitude and longitude print alike
    get the same seed and the same synthetic value. *)
Theorem fake_uniform_sees_four_decimals (secret : SipHash.secret) (la lo la' lo' : F)
    (dt_iso var : string) (low high : F) (decimals : nat) :
  ffixed 4 la = ffixed 4 la' -> ffixed 4 lo = ffixed 4 lo' ->
  _seed_from secret la lo dt_iso var = _seed_from secret la' lo' dt_iso var /\
  _fake_uniform secret la lo dt_iso var low high decimals
    = _fake_uniform secret la' lo' dt_iso var low high decimals.
Proof.
  intros Hla Hlo.
  assert (Hs : _seed_from secret la lo dt_iso var = _seed_from secret la' lo' dt_iso var).
  { unfold _seed_from. now rewrite Hla, Hlo. }
  split; [exact Hs|]. unfold _fake_uniform. now rewrite Hs.
Qed.

End SeedFacts.

Lemma fake_uniform_sees_four_decimals_witness :
  _fake_uniform Fixture.process0 40.70001%float (-74.00002)%float
    "2024-05-01T12:00:00+00:00" "temperature" (num (-5)) (num 38) 1
  = _fake_uniform Fixture.process0 40.70004%float (-73.99996)%float
    "2024-05-01T12:00:00+00:00" "temperature" (num (-5)) (num 38) 1.
Proof.
  apply (fake_uniform_sees_four_decimals Fixture.process0
           40.70001%float (-74.00002)%float 40.70004%float (-73.99996)%float);
    vm_compute; reflexivity.
Defined.

(** ** Grid indices and time windows *)







(** X10.  The half-hour window of a timestamp starts at minute 0 or 30 of
    the same hour, ends 29 minutes and 59 seconds later within that hour, and
    holds the timestamp's minute. *)
Theorem half_hour_window_holds_the_minute (dt : datetime) :
  0 <= minute dt < 60 ->
  let '(s, e) := _half_hour_window dt in
  (minute s = 0 \/ minute s = 30) /\
  minute s <= minute dt <= minute e /\
  minute e = minute s + 29 /\ minute e < 60 /\
  second s = 0 /\ second e = 59 /\
  hour s = hour dt /\ hour e = hour dt /\ day s = day dt /\ day e = day dt.
Proof.
  intros Hm. unfold _half_hour_window.
  destruct (Z.ltb_spec (minute dt) 30); cbn; repeat split; lia.
Qed.

Lemma half_hour_window_holds_the_minute_witness :
  let dt := {| year := 2024; month := 5; day := 1; hour := 12; minute := 47; second := 3;
               microsecond := 0 |} in
  let '(s, e) := _half_hour_window dt in
  (minute s = 0 \/ minute s = 30) /\
  minute s <= 47 <= minute e /\
  minute e = minute s + 29 /\ minute e < 60 /\
  second s = 0 /\ second e = 59 /\
  hour s = 12 /\ hour e = 12 /\ day s = 1 /\ day e = 1.
Proof.
  exact (half_hour_window_holds_the_minute
           {| year := 2024; month := 5; day := 1; hour := 12; minute := 47; second := 3;
              microsecond := 0 |} ltac:(simpl; lia)).
Defined.

Example imerg_granule_name_of_a_timestamp :
  _imerg_granule_name
    {| year := 2024; month := 5; day := 1; hour := 12; minute := 47; second := 3;
       microsecond := 0 |}
  = "3B-HHR-L.MS.MRG.3IMERG.20240501-S123000-E125959.V07B.HDF5"%string.
Proof. reflexivity. Qed.

(** ** What the grid adapters answer *)

Section GridAdapterFacts.
Context {F : Type} {HF : PyFloat F}.
Variable env : Environment F.


Context {HS : PySqrt F}.


End GridAdapterFacts.

(** ** Averages in exact arithmetic *)





(** ** Provenance of the predict bodies *)

Section ProvenanceFacts.
Context {F : Type} {HF : PyFloat F}.
Variable env : Environment F.



End ProvenanceFacts.

(** ** Raw mode *)

Section RawFacts.
Context {F : Type} {HF : PyFloat F} {HS : PySqrt F}.


End RawFacts.

(** ** The station adapters *)

Lemma bind_returns {A B : Type} (m : result A) (k : A -> result B) r :
  bind m k = Return r -> exists a, m = Return a /\ k a = Return r.
Proof. destruct m as [a|e]; simpl; [eauto|discriminate]. Qed.

Lemma try_status_returns {A B : Type} (body : result A) handler (rest : A -> result B) r :
  try_status body handler rest = Return r ->
  (exists a, body = Return a /\ rest a = Return r) \/
  (exists code msg, body = Raise (HTTPStatusError code msg) /\ handler code = Return r).
Proof.
  destruct body as [a|[]]; simpl; intros H; try discriminate; eauto.
Qed.

Lemma no_status_bind {A B : Type} (m : result A) (k : A -> result B) :
  no_status_error m -> (forall a, no_status_error (k a)) -> no_status_error (bind m k).
Proof. destruct m as [a|e]; simpl; auto. Qed.

Lemma no_status_try_status {A B : Type} (body : result A) handler (rest : A -> result B) :
  (forall code, no_status_error (handler code)) ->
  (forall a, no_status_error (rest a)) ->
  no_status_error (try_status body handler rest).
Proof. destruct body as [a|[]]; simpl; auto. Qed.

Section JsonFacts.
Context {F : Type} {HF : PyFloat F}.

Lemma no_status_jget (d : json F) key default : no_status_error (jget d key default).
Proof. destruct d; exact I. Qed.

Lemma no_status_jfirst (x : json F) : no_status_error (jfirst x).
Proof. destruct x as [| | | |[|c s]|[|a l]|]; exact I. Qed.

Lemma no_status_jiter (x : json F) : no_status_error (jiter x).
Proof. destruct x; exact I. Qed.

Lemma no_status_jlower (x : json F) : no_status_error (jlower x).
Proof. unfold jlower. destruct (jor x (JStr "")); exact I. Qed.

Lemma no_status_jtimes1000 (x : json F) : no_status_error (jtimes1000 x).
Proof. destruct x; exact I. Qed.

Lemma no_status_for_each {S : Type} (xs : list (json F)) (st : S) body :
  (forall x s, no_status_error (body x s)) -> no_status_error (for_each xs st body).
Proof.
  intros Hb. revert st. induction xs as [|x r IH]; intros st; simpl; [exact I|].
  apply no_status_bind; auto.
Qed.

Lemma for_each_invariant {S : Type} (I : S -> Prop) (xs : list (json F)) body :
  (forall x s s', I s -> body x s = Return s' -> I s') ->
  forall st st', I st -> for_each xs st body = Return st' -> I st'.
Proof.
  intros Hb. induction xs as [|x r IH]; intros st st' Hst Hrun; simpl in Hrun.
  - now injection Hrun as <-.
  - apply bind_returns in Hrun. destruct Hrun as (s1 & H1 & H2). eauto.
Qed.

End JsonFacts.

Section StationFacts.
Context {F : Type} {HF : PyFloat F}.
Variable env : Environment F.

Ltac no_status :=
  repeat first
    [ exact I
    | progress cbv zeta
    | apply no_status_jget | apply no_status_jfirst | apply no_status_jiter
    | apply no_status_jlower | apply no_status_jtimes1000
    | apply no_status_try_status; intros
    | apply no_status_for_each; intros
    | apply no_status_bind; [|intros]
    | match goal with
      | |- no_status_error (if ?c then _ else _) => destruct c
      | |- no_status_error (match ?x with _ => _ end) => destruct x
      | |- no_status_error (let '(_, _) := ?x in _) => destruct x
      end ].

Lemma no_status_sensor_step s sm : no_status_error (sensor_step (F := F) s sm).
Proof. unfold sensor_step. no_status. Qed.

Lemma no_status_latest_step sm wanted r obs :
  no_status_error (latest_step (F := F) sm wanted r obs).
Proof. unfold latest_step. no_status. Qed.

(** X17.  A non-2xx status never leaves the station adapters: whatever the
    network does, neither the OpenAQ lookup nor the AirNow lookup raises
    [httpx.HTTPStatusError]. *)
Theorem station_adapters_catch_every_status (la lo radius : F) (wanted : list string) :
  no_status_error (openaq_latest_nearby_values env la lo radius wanted) /\
  no_status_error (airnow_nearby env la lo radius).
Proof.
  split.
  - unfold openaq_latest_nearby_values, openaq_error.
    repeat first [ apply no_status_sensor_step | apply no_status_latest_step
                 | progress no_status ].
  - unfold airnow_nearby.
    destruct (airnow_api_key (settings env)) as [[|c key]|]; try exact I.
    unfold try_except_status, bind.
    destruct (get_json env _ _) as [data|[]]; exact I.
Qed.

End StationFacts.

Section ObservationFacts.
Context {F : Type} {HF : PyFloat F}.
Variable env : Environment F.

Lemma mem_default_wanted pname :
  mem_string pname default_wanted = true ->
  pname = "pm25"%string \/ pname = "no2"%string \/ pname = "o3"%string.
Proof.
  unfold mem_string, default_wanted. cbn [existsb].
  destruct (String.eqb_spec pname "pm25"); [auto|].
  destruct (String.eqb_spec pname "no2"); [auto|].
  destruct (String.eqb_spec pname "o3"); [auto|discriminate].
Qed.

Lemma jtimes1000_not_none (val v : json F) : jtimes1000 val = Return v -> v <> JNull.
Proof. destruct val; simpl; intros [= <-]; discriminate. Qed.

Lemma is_none_false (val : json F) : is_none val = false -> val <> JNull.
Proof. destruct val; simpl; congruence. Qed.

Lemma latest_step_emits sm (r : json F) obs obs' :
  Forall emitted_observation obs ->
  latest_step sm default_wanted r obs = Return obs' ->
  Forall emitted_observation obs'.
Proof.
  intros Hobs Hstep. unfold latest_step in Hstep.
  apply bind_returns in Hstep. destruct Hstep as (sid & _ & Hstep).
  destruct (negb (hashable sid)); [discriminate|].
  destruct (sensor_find sid sm) as [meta|]; [|now injection Hstep as <-].
  apply bind_returns in Hstep. destruct Hstep as (val & _ & Hstep).
  destruct (mem_string (meta_name meta) default_wanted) eqn:Hw;
    [|now injection Hstep as <-].
  destruct (is_none val) eqn:Hn; [now injection Hstep as <-|].
  cbn [andb negb] in Hstep.
  apply bind_returns in Hstep. destruct Hstep as ([val' units'] & Hconv & Hstep).
  injection Hstep as <-.
  apply Forall_app. split; [exact Hobs|]. constructor; [|constructor].
  apply is_none_false in Hn.
  exists (if String.eqb (meta_name meta) "pm25" then "PM2.5"%string else upper (meta_name meta)),
         val', units'.
  split; [reflexivity|].
  destruct (mem_default_wanted _ Hw) as [E|[E|E]]; rewrite E in *; cbn in Hconv |- *.
  - injection Hconv as <- <-. repeat split; auto; congruence.
  - destruct (meta_units meta) as [| | | |u| |] eqn:Hu;
      try (injection Hconv as <- <-; repeat split; auto; discriminate).
    destruct (String.eqb_spec u "ppm") as [Eu|Eu].
    + apply bind_returns in Hconv. destruct Hconv as (v & Hv & Hret).
      injection Hret as <- <-.
      repeat split; auto; try discriminate. eapply jtimes1000_not_none; eauto.
    + injection Hconv as <- <-. repeat split; auto; congruence.
  - destruct (meta_units meta) as [| | | |u| |] eqn:Hu;
      try (injection Hconv as <- <-; repeat split; auto; discriminate).
    destruct (String.eqb_spec u "ppm") as [Eu|Eu].
    + apply bind_returns in Hconv. destruct Hconv as (v & Hv & Hret).
      injection Hret as <- <-.
      repeat split; auto; try discriminate. eapply jtimes1000_not_none; eauto.
    + injection Hconv as <- <-. repeat split; auto; congruence.
Qed.

(** The payloads the adapter can answer with the default [wanted]: one
    without the key "observations", or the location with its observations. *)
Lemma openaq_payload_shape (la lo radius : F) payload src :
  openaq_latest_nearby_values env la lo radius default_wanted = Return (payload, src) ->
  (exists key msg, payload = JDict [(key, JStr msg)] /\ key <> "observations"%string) \/
  (exists loc_id observations,
     payload = JDict [("location_id"%string, loc_id);
                      ("observations"%string, JList observations)] /\
     Forall emitted_observation observations).
Proof.
  unfold openaq_latest_nearby_values, openaq_error. intros H.
  apply try_status_returns in H.
  destruct H as [(locs & _ & H)|(code & msg & _ & H)];
    [|injection H as <- _; left; eexists _, _; split; [reflexivity|discriminate]].
  apply bind_returns in H. destruct H as (locs_res & _ & H).
  destruct (negb (truthy locs_res));
    [injection H as <- _; left; eexists _, _; split; [reflexivity|discriminate]|].
  apply bind_returns in H. destruct H as (loc & _ & H).
  apply bind_returns in H. destruct H as (loc_id & _ & H).
  apply try_status_returns in H.
  destruct H as [(loc_detail & _ & H)|(code & msg & _ & H)];
    [|injection H as <- _; left; eexists _, _; split; [reflexivity|discriminate]].
  apply bind_returns in H. destruct H as (res & _ & H).
  apply bind_returns in H. destruct H as (loc_detail_res & _ & H).
  apply bind_returns in H. destruct H as (sensors & _ & H).
  apply bind_returns in H. destruct H as (items & _ & H).
  apply bind_returns in H. destruct H as (sensor_map & _ & H).
  apply try_status_returns in H.
  destruct H as [(latest & _ & H)|(code & msg & _ & H)];
    [|injection H as <- _; left; eexists _, _; split; [reflexivity|discriminate]].
  apply bind_returns in H. destruct H as (results & _ & H).
  apply bind_returns in H. destruct H as (rows & _ & H).
  apply bind_returns in H. destruct H as (observations & Hloop & H).
  injection H as <- _. right. exists loc_id, observations. split; [reflexivity|].
  eapply (for_each_invariant (Forall emitted_observation)); [|constructor|exact Hloop].
  intros x s s' Hs Hx. eapply latest_step_emits; eauto.
Qed.

(** X18.  With the default [wanted], every observation the OpenAQ adapter
    answers is a dict with the keys name, value and unit, in that order; its
    name is PM2.5, NO2 or O3; its value is not None; and an NO2 or O3
    observation never has the unit ppm.  A payload without observations
    (error, no station nearby) counts as none. *)
Theorem openaq_observations_are_normalized (la lo radius : F) payload src :
  openaq_latest_nearby_values env la lo radius default_wanted = Return (payload, src) ->
  Forall emitted_observation (payload_observations payload).
Proof.
  intros H. apply openaq_payload_shape in H.
  destruct H as [(key & msg & -> & Hk)|(loc_id & observations & -> & Hobs)].
  - unfold payload_observations. cbn [assoc].
    destruct (String.eqb_spec key "observations"); [contradiction|constructor].
  - exact Hobs.
Qed.

Lemma bucket_step_skips_pm25 (it : json F) no2 o3 :
  emitted_observation it ->
  exists no2' o3', bucket_step it ([], no2, o3) = Return ([], no2', o3').
Proof.
  intros (name & val & units & -> & Hname & Hval & _).
  unfold bucket_step. cbn [jget assoc String.eqb Ascii.eqb Bool.eqb bind].
  destruct val; try congruence;
    destruct Hname as [<-|[<-|[<-|[]]]]; cbv; eauto.
Qed.

(** X19.  The raw air-quality branch never gets a PM2.5 reading to
    summarize: the adapter names that pollutant "PM2.5", the sorting loop
    looks for "pm25" after lower-casing, so for every payload of the adapter
    the loop ends without raising and with [pm25_vals] empty. *)
Theorem raw_air_quality_never_sees_pm25 (la lo radius : F) payload src :
  openaq_latest_nearby_values env la lo radius default_wanted = Return (payload, src) ->
  exists no2_vals o3_vals, openaq_buckets payload = Return ([], no2_vals, o3_vals).
Proof.
  intros H. apply openaq_payload_shape in H.
  destruct H as [(key & msg & -> & Hk)|(loc_id & observations & -> & Hobs)].
  - unfold openaq_buckets. cbn [jget assoc].
    destruct (String.eqb_spec key "observations"); [contradiction|].
    cbn. eauto.
  - unfold openaq_buckets. cbn [jget assoc String.eqb Ascii.eqb Bool.eqb bind].
    assert (Hit : jiter (jor (JList observations) (JList [])) = Return observations)
      by (destruct observations; reflexivity).
    rewrite Hit. cbn [bind]. clear Hit.
    assert (Hgen : forall no2 o3, exists no2' o3',
               for_each observations ([], no2, o3) bucket_step = Return ([], no2', o3')).
    { induction Hobs as [|it rest Hit' _ IH]; intros no2 o3; cbn [for_each]; [eauto|].
      destruct (bucket_step_skips_pm25 it no2 o3 Hit') as (no2' & o3' & ->).
      cbn [bind]. apply IH. }
    apply Hgen.
Qed.

End ObservationFacts.

(** ** The time block *)

Lemma plus_free_app (s t : string) :
  plus_free (s ++ t) = plus_free s && plus_free t.
Proof.
  induction s as [|c s IH]; simpl; [reflexivity|].
  now rewrite IH, andb_assoc.
Qed.

Lemma plus_free_uint (d : Decimal.uint) : plus_free (NilEmpty.string_of_uint d) = true.
Proof. induction d; simpl; auto. Qed.

Lemma plus_free_nonneg (z : Z) : plus_free (string_of_nonneg z) = true.
Proof.
  unfold string_of_nonneg, NilZero.string_of_uint.
  destruct (N.to_uint (Z.to_N z)); try reflexivity; apply plus_free_uint.
Qed.

Lemma plus_free_zero_pad_to (fuel target : nat) (s : string) :
  plus_free s = true -> plus_free (zero_pad_to fuel target s) = true.
Proof.
  revert s. induction fuel as [|f IH]; intros s Hs; simpl; [exact Hs|].
  destruct (Nat.ltb (String.length s) target); [|exact Hs].
  apply IH. simpl. exact Hs.
Qed.

Lemma plus_free_digits (width : nat) (z : Z) : plus_free (digits width z) = true.
Proof. apply plus_free_zero_pad_to, plus_free_nonneg. Qed.

Lemma plus_free_isoformat_local (dt : datetime) : plus_free (isoformat_local dt) = true.
Proof.
  unfold isoformat_local.
  repeat (rewrite plus_free_app; apply andb_true_intro; split);
    try apply plus_free_digits; try reflexivity.
  destruct (microsecond dt =? 0); [reflexivity|].
  rewrite plus_free_app. now rewrite plus_free_digits.
Qed.

Lemma replace_offset (fuel : nat) (p : string) :
  plus_free p = true -> (String.length p < fuel)%nat ->
  replace fuel "+00:00" "Z" (p ++ "+00:00") = (p ++ "Z")%string.
Proof.
  revert fuel. induction p as [|c p IH]; intros fuel Hp Hf.
  - destruct fuel as [|[|f]]; [simpl in Hf; lia| |]; reflexivity.
  - destruct fuel as [|f]; [simpl in Hf; lia|].
    simpl in Hp. apply andb_prop in Hp. destruct Hp as [Hc Hp].
    cbn [append replace]. 
    assert (Hpre : String.prefix "+00:00" (String c (p ++ "+00:00")) = false).
    { cbn [String.prefix]. destruct (Ascii.ascii_dec "+" c) as [<-|_]; [discriminate|reflexivity]. }
    rewrite Hpre. cbn [andb]. f_equal. apply IH; [exact Hp|simpl in Hf; lia].
Qed.

Lemma string_app_assoc (a b c : string) : ((a ++ b) ++ c = a ++ (b ++ c))%string.
Proof. induction a as [|x a IH]; simpl; [reflexivity|now rewrite IH]. Qed.

Lemma string_app_length (a b : string) :
  String.length (a ++ b) = (String.length a + String.length b)%nat.
Proof. induction a as [|x a IH]; simpl; [reflexivity|now rewrite IH]. Qed.

Lemma isoformat_split (dt : datetime) :
  isoformat dt = (isoformat_local dt ++ "+00:00")%string.
Proof.
  unfold isoformat, isoformat_local.
  repeat rewrite string_app_assoc. reflexivity.
Qed.

(** X20.  The "time" block of a predict body carries the horizon it was
    given and the ISO timestamp with its "+00:00" replaced by "Z": the date
    and time as [isoformat] prints them, then the letter Z. *)
Theorem predict_time_block_ends_in_z (dt : datetime) (horizon : Z) :
  datetime_iso (_predict_time_block dt horizon) = (isoformat_local dt ++ "Z")%string /\
  horizon_hours (_predict_time_block dt horizon) = horizon.
Proof.
  split; [|reflexivity].
  unfold _predict_time_block, str_replace. cbn [datetime_iso].
  rewrite isoformat_split. apply replace_offset.
  - apply plus_free_isoformat_local.
  - rewrite string_app_length. simpl. lia.
Qed.

(** ** Exact arithmetic: statistics and derived values *)










(** ** The statements above at concrete inputs *)





Lemma openaq_observations_are_normalized_witness :
  exists payload src,
    openaq_latest_nearby_values More.station 40.7%float (-74)%float 25%float default_wanted
      = Return (payload, src) /\
    payload_observations payload
      = [ JDict [("name"%string, JStr "PM2.5"); ("value"%string, JFloat 12.5%float);
                 ("unit"%string, JStr "µg/m³")];
          JDict [("name"%string, JStr "NO2"); ("value"%string, JFloat 21%float);
                 ("unit"%string, JStr "ppb")] ] /\
    Forall emitted_observation (payload_observations payload).
Proof.
  eexists _, _. split; [vm_compute; reflexivity|]. split; [reflexivity|].
  apply (openaq_observations_are_normalized More.station 40.7%float (-74)%float 25%float
           _ _ ltac:(vm_compute; reflexivity)).
Defined.

Lemma raw_air_quality_never_sees_pm25_witness :
  exists payload src no2_vals o3_vals,
    openaq_latest_nearby_values More.station 40.7%float (-74)%float 25%float default_wanted
      = Return (payload, src) /\
    payload_observations payload <> [] /\
    openaq_buckets payload = Return ([], no2_vals, o3_vals).
Proof.
  destruct (openaq_latest_nearby_values More.station 40.7%float (-74)%float 25%float
              default_wanted) as [[payload src]|e] eqn:H.
  - destruct (raw_air_quality_never_sees_pm25 More.station 40.7%float (-74)%float 25%float
                payload src H) as (no2_vals & o3_vals & Hb).
    exists payload, src, no2_vals, o3_vals. split; [reflexivity|]. split; [|exact Hb].
    vm_compute in H. injection H as <- _. discriminate.
  - vm_compute in H. discriminate.
Defined.
